(** * Backtest framework: ledger, rolling tracker, pair signal, strategy

    A shallow embedding of [backtesting/tracker.py], [backtesting/signal.py],
    [backtesting/strategy.py] and the constructor of [backtesting/backtest.py].

    Numbers.  Python and numpy floats are modelled by exact rationals [Q]
    extended with one not-a-number value; rounding, overflow and the
    infinities are outside the model, so arithmetic identities are stated up
    to [Qeq] ([==]) and every price is a finite number or NaN.
    Division is only ever performed on a denominator that the code (or the
    model) has checked to be non-zero.

    Errors.  A Python exception aborts the constructor; it is modelled by the
    [Err] case of [result]. *)

From Stdlib Require Import ZArith QArith Qabs Qminmax Lqa Lia List Ascii String.
From stdpp Require Import base option list gmap strings.

Local Open Scope Q_scope.

(** ** Exceptions and the error monad *)

Inductive exn : Type :=
| StrategyNotRecognized (strategy : string)   (* KeyError raised by Backtest.__init__ *)
| ColumnKeyError (column : string)            (* KeyError raised by a row lookup *)
| ZeroDivisionError.

Inductive result (A : Type) : Type :=
| Ok (a : A)
| Err (e : exn).
Arguments Ok {A} a.
Arguments Err {A} e.

(** [result] is a monad; the instances give it stdpp's [x ← m; k] notation. *)
#[global] Instance result_ret : MRet result := fun A a => Ok a.
#[global] Instance result_bind : MBind result := fun A B k m =>
  match m with
  | Ok a => k a
  | Err e => Err e
  end.

(** ** Floating-point values: a rational or NaN *)

Inductive float64 : Type :=
| Fin (q : Q)
| NaN.

Definition isnan (x : float64) : bool :=
  match x with
  | NaN => true
  | Fin _ => false
  end.

Definition lift2 (f : Q -> Q -> Q) (x y : float64) : float64 :=
  match x, y with
  | Fin a, Fin b => Fin (f a b)
  | _, _ => NaN
  end.

Definition fadd : float64 -> float64 -> float64 := lift2 Qplus.
Definition fsub : float64 -> float64 -> float64 := lift2 Qminus.
Definition fmul : float64 -> float64 -> float64 := lift2 Qmult.
(** [fdiv x y] is only used where [y] has been tested to differ from zero. *)
Definition fdiv : float64 -> float64 -> float64 := lift2 Qdiv.
Definition fneg (x : float64) : float64 :=
  match x with
  | Fin a => Fin (- a)
  | NaN => NaN
  end.

Definition Qltb (a b : Q) : bool :=
  match a ?= b with
  | Lt => true
  | _ => false
  end.

(** [x < y] and [x == y] on floats: every comparison with NaN is false. *)
Definition fltb (x y : float64) : bool :=
  match x, y with
  | Fin a, Fin b => Qltb a b
  | _, _ => false
  end.

Definition feqb (x y : float64) : bool :=
  match x, y with
  | Fin a, Fin b => Qeq_bool a b
  | _, _ => false
  end.

(** [sum(l)]: left fold of [+] starting from the integer 0. *)
Definition fsum (l : list float64) : float64 :=
  fold_left fadd l (Fin 0).

(** ** tracker.py *)

Module Tracker.

Record t : Type := mk {
  prev_date : option Z;
  prev_price : float64;
  day_return : float64;
  n : Z;
  price_window : list float64;
  moving_average : float64;
  std : float64
}.

(** [Tracker.__init__(n)] *)
Definition init (n : Z) : t :=
  {| prev_date := None; prev_price := Fin 0; day_return := Fin 0;
     n := n; price_window := [];
     moving_average := Fin 0; std := Fin 0 |}.

(** [list.pop()] without an index removes the LAST element. *)
Definition pop (w : list float64) : list float64 := removelast w.

(** [sum(w) / len(w)]; dividing by the length of an empty list raises. *)
Definition mean_of (w : list float64) : result float64 :=
  match w with
  | [] => Err ZeroDivisionError
  | _ => Ok (fdiv (fsum w) (Fin (inject_Z (Z.of_nat (length w)))))
  end.

(** The statistics block, lines 49-57. *)
Definition stats (w : list float64) : result (float64 * float64) :=
  if existsb isnan w then Ok (NaN, NaN)
  else
    m ← mean_of w;
    let avg_err_sq := map (fun value => fmul (fsub value m) (fsub value m)) w in
    s ← mean_of avg_err_sq;
    Ok (m, s).

(** The conditional expression of line 59. *)
Definition return_of (prev price : float64) : float64 :=
  if feqb prev (Fin 0) then Fin 0
  else if negb (isnan price) && negb (isnan prev)
       then fsub (fdiv price prev) (Fin 1)
       else NaN.

(** [Tracker.__call__(date, price)] *)
Definition call (tr : t) (date : Z) (price : float64) : result t :=
  let w := price_window tr ++ [price] in
  if (Z.of_nat (length w) >? n tr)%Z then
    let w := pop w in
    '(m, s) ← stats w;
    Ok {| prev_date := Some date;
          prev_price := price;
          day_return := return_of (prev_price tr) price;
          n := n tr;
          price_window := w;
          moving_average := m;
          std := s |}
  else
    Ok {| prev_date := prev_date tr;
          prev_price := prev_price tr;
          day_return := day_return tr;
          n := n tr;
          price_window := w;
          moving_average := moving_average tr;
          std := std tr |}.

(** Feeding a list of observations, oldest first. *)
Fixpoint feed (tr : t) (obs : list (Z * float64)) : result t :=
  match obs with
  | [] => Ok tr
  | (d, p) :: rest => tr' ← call tr d p; feed tr' rest
  end.

End Tracker.

(** ** Price rows and keyword arguments *)

(** One row of the price table, as [DataFrame.iterrows] yields it: a map
    from column name to price; a missing observation is a NaN. *)
Abbreviation row := (gmap string float64).

(** [row[key]] *)
Definition getitem (r : row) (key : string) : result float64 :=
  match r !! key with
  | Some v => Ok v
  | None => Err (ColumnKeyError key)
  end.

(** The keyword bag passed to [Backtest], the strategy and the signal.  The
    five entries that [StdDevPairSignal.__init__] takes as named parameters are
    mandatory; the three read with [kwargs.get] are optional. *)
Record kwargs : Type := mkKwargs {
  kw_asset_a : string;
  kw_asset_b : string;
  kw_n_days : Z;
  kw_std_rise : Q;
  kw_std_drop : Q;
  kw_long_size : option Q;
  kw_short_size : option Q;
  kw_C : option Q
}.

(** [kwargs.get(key, dflt)] *)
Definition get (v : option Q) (dflt : Q) : Q :=
  match v with
  | Some x => x
  | None => dflt
  end.

(** ** signal.py *)

Module StdDevPairSignal.

Record t : Type := mk {
  asset_a : string;
  asset_b : string;
  tracker : Tracker.t;
  std_rise : Q;
  std_drop : Q;
  n_days : Z
}.

Definition init (kw : kwargs) : t :=
  {| asset_a := kw_asset_a kw; asset_b := kw_asset_b kw;
     tracker := Tracker.init (kw_n_days kw);
     std_rise := kw_std_rise kw; std_drop := kw_std_drop kw;
     n_days := kw_n_days kw |}.

Definition with_tracker (sg : t) (tr : Tracker.t) : t :=
  {| asset_a := asset_a sg; asset_b := asset_b sg; tracker := tr;
     std_rise := std_rise sg; std_drop := std_drop sg; n_days := n_days sg |}.

(** The two threshold tests of lines 100-103; the second overwrites. *)
Definition decide_signal (sg : t) (tr : Tracker.t) : Q :=
  let signal := 0 in
  let signal :=
    if fltb (fmul (Tracker.std tr) (Fin (std_rise sg))) (Tracker.day_return tr)
    then 1 else signal in
  let signal :=
    if fltb (Tracker.day_return tr) (fmul (fneg (Tracker.std tr)) (Fin (std_drop sg)))
    then -1 else signal in
  signal.

(** [StdDevPairSignal.__call__(index, price_args)]; the [or] chain is
    evaluated left to right and stops at the first true operand. *)
Definition call (sg : t) (index : Z) (price_args : row)
  : result (t * (string * Q)) :=
  current_price ← getitem price_args (asset_b sg);
  if isnan current_price then Ok (sg, (asset_a sg, 0))
  else
    price_a ← getitem price_args (asset_a sg);
    if isnan price_a then Ok (sg, (asset_a sg, 0))
    else if isnan (Tracker.std (tracker sg)) then Ok (sg, (asset_a sg, 0))
    else
      tr ← Tracker.call (tracker sg) index current_price;
      Ok (with_tracker sg tr, (asset_a sg, decide_signal sg tr)).

End StdDevPairSignal.

(** ** strategy.py *)

(** What a strategy hands to the engine: a signed size or the string
    [close]. *)
Inductive order : Type :=
| Size (s : Q)
| Close.

(** The abstract class [Strategy]: an object with its own state and one
    [__call__] method. *)
Record Strategy : Type := mkStrategy {
  strategy_state : Type;
  strategy_self : strategy_state;
  strategy_call :
    strategy_state -> Z -> row -> result (strategy_state * (string * order))
}.

Module FuturesStdPairStrategy.

Record t : Type := mk {
  stdsignal : StdDevPairSignal.t;
  buy_size : Q;
  short_size : Q
}.

Definition init (kw : kwargs) : t :=
  {| stdsignal := StdDevPairSignal.init kw;
     buy_size := get (kw_long_size kw) 10;
     short_size := get (kw_short_size kw) 10 |}.

Definition with_signal (s : t) (sg : StdDevPairSignal.t) : t :=
  {| stdsignal := sg; buy_size := buy_size s; short_size := short_size s |}.

(** [FuturesStdPairStrategy.__call__(index, price_args)] *)
Definition call (s : t) (index : Z) (price_args : row)
  : result (t * (string * order)) :=
  '(sg, (asset, std_signal)) ← StdDevPairSignal.call (stdsignal s) index price_args;
  if Qeq_bool std_signal 1 then
    Ok (with_signal s sg, (asset, Size (buy_size s * std_signal)))
  else if Qeq_bool std_signal (-1) then
    Ok (with_signal s sg, (asset, Size (short_size s * std_signal)))
  else
    Ok (with_signal s sg, (asset, Close)).

(** The instance as a [Strategy] object. *)
Definition new (kw : kwargs) : Strategy :=
  {| strategy_state := t; strategy_self := init kw; strategy_call := call |}.

End FuturesStdPairStrategy.

(** ** backtest.py *)

(** [str.lower] on the ASCII letters. *)
Definition lower_ascii (c : ascii) : ascii :=
  let k := N_of_ascii c in
  if ((65 <=? k) && (k <=? 90))%N then ascii_of_N (k + 32) else c.

Fixpoint lower (s : string) : string :=
  match s with
  | EmptyString => EmptyString
  | String c rest => String (lower_ascii c) (lower rest)
  end.

Module Backtest.

Record t : Type := mk {
  t_cost : Q;
  initial_value : Q;
  cash : Q;
  position_value : Q;
  position_size : Q;
  prev_price : float64;
  max_value : Q;
  pnl : list Q;
  drawdown : list Q
}.

(** Lines 44-53: the ledger before the first day. *)
Definition start (cash : Q) (kw : kwargs) : t :=
  {| t_cost := get (kw_C kw) (1 # 10);
     initial_value := cash; cash := cash;
     position_value := 0; position_size := 0;
     prev_price := NaN;
     max_value := cash;
     pnl := []; drawdown := [] |}.

(** Lines 62-65, for a price that is not NaN. *)
Definition day_return (bt : t) (price : Q) : Q :=
  match prev_price bt with
  | Fin prev => if Qeq_bool prev 0 then 0 else price / prev - 1
  | NaN => 0
  end.

(** Lines 62-69: the day's return, the new previous price and the
    revaluation of the open position. *)
Definition mark_to_market (bt : t) (price : Q) : t :=
  let r := day_return bt price in
  {| t_cost := t_cost bt; initial_value := initial_value bt;
     cash := cash bt;
     position_value := position_value bt + position_value bt * r * position_size bt;
     position_size := position_size bt;
     prev_price := Fin price;
     max_value := max_value bt; pnl := pnl bt; drawdown := drawdown bt |}.

(** Lines 72-79: the order is applied to the revalued ledger. *)
Definition apply_order (bt : t) (trade_size : order) (price : Q) : t :=
  match trade_size with
  | Close =>
      {| t_cost := t_cost bt; initial_value := initial_value bt;
         cash := cash bt + (position_value bt - t_cost bt);
         position_value := 0;
         position_size := position_size bt;
         prev_price := prev_price bt;
         max_value := max_value bt; pnl := pnl bt; drawdown := drawdown bt |}
  | Size s =>
      if Qle_bool (Qabs s * price + t_cost bt) (cash bt) then
        {| t_cost := t_cost bt; initial_value := initial_value bt;
           cash := cash bt - (Qabs s * price - t_cost bt);
           position_value := position_value bt + s * price;
           position_size := position_size bt + s;
           prev_price := prev_price bt;
           max_value := max_value bt; pnl := pnl bt; drawdown := drawdown bt |}
      else bt
  end.

(** Lines 62-79 together. *)
Definition settle (bt : t) (trade_size : order) (price : Q) : t :=
  apply_order (mark_to_market bt price) trade_size price.

(** Lines 82-90: the day's observations.  The quotient of line 89 raises
    when the running maximum is zero and both operands are Python numbers,
    as they are on a first day that closes; on numpy scalars it would be an
    infinity with a warning, which the model does not represent.  The
    statements below are about days that complete or about a positive
    maximum, where the two agree. *)
Definition record (bt : t) : result t :=
  let total_value := position_value bt + cash bt in
  let profit := total_value - initial_value bt in
  let max_value := Qmax (max_value bt) profit in
  if Qeq_bool max_value 0 then Err ZeroDivisionError
  else
    Ok {| t_cost := t_cost bt; initial_value := initial_value bt;
          cash := cash bt;
          position_value := position_value bt;
          position_size := position_size bt;
          prev_price := prev_price bt;
          max_value := max_value;
          pnl := pnl bt ++ [total_value];
          drawdown := drawdown bt ++ [(max_value - total_value) / max_value] |}.

(** Lines 92-94: a day without a price for the traded asset. *)
Definition skip (bt : t) : t :=
  {| t_cost := t_cost bt; initial_value := initial_value bt;
     cash := cash bt;
     position_value := position_value bt;
     position_size := position_size bt;
     prev_price := prev_price bt;
     max_value := max_value bt;
     pnl := pnl bt ++ [position_value bt + cash bt];
     drawdown := drawdown bt ++ [0] |}.

(** Lines 60-94: one day of the ledger, given the order and the price. *)
Definition day (bt : t) (trade_size : order) (price : float64) : result t :=
  match price with
  | Fin p => record (settle bt trade_size p)
  | NaN => Ok (skip bt)
  end.

(** Lines 55-94: the loop over the rows of the table. *)
Fixpoint loop {S : Type}
    (call : S -> Z -> row -> result (S * (string * order)))
    (s : S) (bt : t) (rows : list (Z * row)) : result (S * t) :=
  match rows with
  | [] => Ok (s, bt)
  | (index, r) :: rest =>
      '(s', (asset, trade_size)) ← call s index r;
      price ← getitem r asset;
      bt' ← day bt trade_size price;
      loop call s' bt' rest
  end.

(** The two patterns of the [match] on the lowered name, line 38. *)
Definition recognized (l : string) : bool :=
  String.eqb l "future_pairs_strategy" || String.eqb l "futurepairsstrategy".

(** Lines 36-42: a strategy given by name is looked up, an instance is
    taken as it is. *)
Definition resolve (strategy : string + Strategy) (kw : kwargs) : result Strategy :=
  match strategy with
  | inr instance => Ok instance
  | inl name =>
      if recognized (lower name)
      then Ok (FuturesStdPairStrategy.new kw)
      else Err (StrategyNotRecognized name)
  end.

(** [Backtest.__init__(dataset, strategy, cash, **kwargs)]; the result is
    the ledger with its two series. *)
Definition init (dataset : list (Z * row)) (strategy : string + Strategy)
    (cash : Q) (kw : kwargs) : result t :=
  strategy ← resolve strategy kw;
  '(_, bt) ← loop (strategy_call strategy) (strategy_self strategy)
               (start cash kw) dataset;
  Ok bt.

End Backtest.

(** ** utils.py *)

Module CSVDataset.

(** [CSVDataset.get_key(key)]: the column of the merged table that holds
    the prices read for the identifier [key]. *)
Definition get_key (key : string) : string := (key ++ " Price")%string.

End CSVDataset.

(** ** Vocabulary of the statements *)

(** Cash and position agree in two ledgers. *)
Definition same_position (a b : Backtest.t) : Prop :=
  Backtest.cash a = Backtest.cash b /\
  Backtest.position_value a = Backtest.position_value b /\
  Backtest.position_size a = Backtest.position_size b.

(** A two-column row, and the keyword bag of the examples: window [n],
    both thresholds one half, default sizes and cost. *)
Definition row2 (a b : float64) : row :=
  {[ "A Price"%string := a; "B Price"%string := b ]}.

Definition example_kwargs (n : Z) : kwargs :=
  {| kw_asset_a := "A Price"; kw_asset_b := "B Price"; kw_n_days := n;
     kw_std_rise := 1 # 2; kw_std_drop := 1 # 2;
     kw_long_size := None; kw_short_size := None; kw_C := None |}.

(** The outputs of a stateful [__call__] over the rows of a table. *)
Fixpoint trace {S O : Type} (call : S -> Z -> row -> result (S * O))
    (s : S) (rows : list (Z * row)) : result (S * list O) :=
  match rows with
  | [] => Ok (s, [])
  | (index, r) :: rest =>
      '(s', o) ← call s index r;
      '(s'', os) ← trace call s' rest;
      Ok (s'', o :: os)
  end.

(** Both columns of the pair are in the row. *)
Definition has_columns (kw : kwargs) (r : row) : Prop :=
  is_Some (r !! kw_asset_a kw) /\ is_Some (r !! kw_asset_b kw).

(** The price the signal feeds to its tracker on a row: the one of asset b,
    on the days on which neither price is NaN. *)
Definition observation (kw : kwargs) (r : row) : list float64 :=
  match r !! kw_asset_b kw, r !! kw_asset_a kw with
  | Some (Fin b), Some (Fin _) => [Fin b]
  | _, _ => []
  end.

Fixpoint observations (kw : kwargs) (rows : list (Z * row)) : list float64 :=
  match rows with
  | [] => []
  | (_, r) :: rest => observation kw r ++ observations kw rest
  end.

(** A tracker that has not yet computed anything: the fields of
    [Tracker.init] around a window [w]. *)
Definition warming (n : Z) (w : list float64) : Tracker.t :=
  {| Tracker.prev_date := None; Tracker.prev_price := Fin 0;
     Tracker.day_return := Fin 0; Tracker.n := n; Tracker.price_window := w;
     Tracker.moving_average := Fin 0; Tracker.std := Fin 0 |}.

(** The number of days on which the traded asset, asset a, has a price. *)
Definition present (kw : kwargs) (r : row) : nat :=
  match r !! kw_asset_a kw with
  | Some (Fin _) => 1
  | _ => 0
  end.

Fixpoint present_days (kw : kwargs) (rows : list (Z * row)) : nat :=
  match rows with
  | [] => 0
  | (_, r) :: rest => present kw r + present_days kw rest
  end.

(** The errors that a run of the pair strategy can end with: every one but
    the rejection of the strategy name. *)
Definition run_error (e : exn) : Prop :=
  match e with
  | StrategyNotRecognized _ => False
  | ColumnKeyError _ | ZeroDivisionError => True
  end.

(** A state of the pair strategy built from the keyword bag [kw]. *)
Definition strategy_for (kw : kwargs) (s : FuturesStdPairStrategy.t) : Prop :=
  let sg := FuturesStdPairStrategy.stdsignal s in
  StdDevPairSignal.asset_a sg = kw_asset_a kw /\
  StdDevPairSignal.asset_b sg = kw_asset_b kw /\
  Tracker.n (StdDevPairSignal.tracker sg) = kw_n_days kw.

(** A numeric order that the cash covers on a day with a price. *)
Definition executes (bt : Backtest.t) (o : order) (price : float64) : bool :=
  match o, price with
  | Size s, Fin p => Qle_bool (Qabs s * p + Backtest.t_cost bt) (Backtest.cash bt)
  | _, _ => false
  end.

(** The signal and the strategy around a tracker that is still warming. *)
Definition warming_signal (kw : kwargs) (w : list float64) : StdDevPairSignal.t :=
  StdDevPairSignal.with_tracker (StdDevPairSignal.init kw)
    (warming (kw_n_days kw) w).

Definition warming_strategy (kw : kwargs) (w : list float64)
  : FuturesStdPairStrategy.t :=
  FuturesStdPairStrategy.with_signal (FuturesStdPairStrategy.init kw)
    (warming_signal kw w).

(** Four days of a pair of prices. *)
Definition four_days : list (Z * row) :=
  [(1, row2 (Fin 10) (Fin 10)); (2, row2 (Fin 11) (Fin 9));
   (3, row2 (Fin 9) (Fin 12)); (4, row2 (Fin 10) (Fin 10))]%Z.

(** The prices of a list of dated observations. *)
Definition prices (obs : list (Z * float64)) : list float64 := map snd obs.

(** The sum of a list of rationals, added up from the left as [sum] does. *)
Definition Qsum (qs : list Q) : Q := fold_left Qplus qs 0.

(** The squared deviations of [qs] from [m]. *)
Definition sq_dev (m : Q) (qs : list Q) : list Q :=
  map (fun q => (q - m) * (q - m)) qs.

(** A tracker without a NaN: in the window, in the statistics, in the
    previous price and in the day return; its variance is not negative. *)
Definition finite_tracker (tr : Tracker.t) : Prop :=
  Forall (fun x => isnan x = false) (Tracker.price_window tr) /\
  isnan (Tracker.moving_average tr) = false /\
  (exists v, Tracker.std tr = Fin v /\ 0 <= v) /\
  isnan (Tracker.prev_price tr) = false /\
  isnan (Tracker.day_return tr) = false.

(** A row in which the traded asset has no price; the column of the other
    asset is there. *)
Definition no_price (kw : kwargs) (r : row) : Prop :=
  r !! kw_asset_a kw = Some NaN /\ is_Some (r !! kw_asset_b kw).



(** * Properties *)

(** ** Arithmetic helpers *)

Lemma Qltb_lt (a b : Q) : Qltb a b = true <-> a < b.
Proof.
  unfold Qltb. rewrite Qlt_alt.
  destruct (a ?= b); split; intros H; try reflexivity; discriminate.
Qed.

Lemma Qltb_irrefl_eq (a b : Q) : a == b -> Qltb a b = false.
Proof.
  intros E. destruct (Qltb a b) eqn:H; [|reflexivity].
  apply Qltb_lt in H. rewrite E in H. exfalso. apply (Qlt_irrefl b). exact H.
Qed.

Lemma Qmax_ge_l (a b : Q) : a <= Qmax a b.
Proof. apply Q.le_max_l. Qed.

Lemma Qmax_ge_r (a b : Q) : b <= Qmax a b.
Proof. apply Q.le_max_r. Qed.

(** ** One day of the ledger *)

Section Day.

Import Backtest.

Lemma record_inv (bt bt' : t) :
  record bt = Ok bt' ->
  let total_value := position_value bt + cash bt in
  same_position bt' bt /\
  t_cost bt' = t_cost bt /\ initial_value bt' = initial_value bt /\
  prev_price bt' = prev_price bt /\
  max_value bt' = Qmax (max_value bt) (total_value - initial_value bt) /\
  ~ max_value bt' == 0 /\
  pnl bt' = pnl bt ++ [total_value] /\
  drawdown bt' = drawdown bt ++ [(max_value bt' - total_value) / max_value bt'].
Proof.
  unfold record.
  destruct (Qeq_bool _ 0) eqn:E; [discriminate|].
  intros H. injection H as <-. cbn.
  apply Qeq_bool_neq in E.
  unfold same_position. cbn. tauto.
Qed.

Lemma record_total (bt : t) :
  0 < max_value bt -> exists bt', record bt = Ok bt'.
Proof.
  intros Hpos. unfold record.
  destruct (Qeq_bool _ 0) eqn:E; [|eexists; reflexivity].
  apply Qeq_bool_iff in E. exfalso.
  pose proof (Qmax_ge_l (max_value bt)
                (position_value bt + cash bt - initial_value bt)) as Hle.
  rewrite E in Hle. apply (Qlt_irrefl 0).
  eapply Qlt_le_trans; eassumption.
Qed.

Lemma settle_fixed (bt : t) (o : order) (p : Q) :
  t_cost (settle bt o p) = t_cost bt /\
  initial_value (settle bt o p) = initial_value bt /\
  max_value (settle bt o p) = max_value bt /\
  pnl (settle bt o p) = pnl bt /\
  drawdown (settle bt o p) = drawdown bt /\
  prev_price (settle bt o p) = Fin p.
Proof.
  unfold settle, apply_order, mark_to_market.
  destruct o as [s|]; cbn; [destruct (Qle_bool _ _); cbn|]; tauto.
Qed.

(** A day with a price returns the settled ledger, extended by the two
    observations, and it does return when the running maximum is positive. *)
Lemma day_present (bt : t) (o : order) (p : Q) :
  (forall bt', day bt o (Fin p) = Ok bt' -> same_position bt' (settle bt o p)) /\
  (0 < max_value bt -> exists bt', day bt o (Fin p) = Ok bt').
Proof.
  split.
  - intros bt' H. cbn in H. apply record_inv in H. tauto.
  - intros Hpos. cbn. apply record_total.
    destruct (settle_fixed bt o p) as (_ & _ & -> & _). exact Hpos.
Qed.

End Day.

(** ** Settlement of an order (C3, C4, C8) *)

Section Settlement.

Import Backtest.

(** C3.  On a day with a price [p], a numeric order of size [s] that the
    cash covers ([cash >= |s|*p + C]) is settled as
    [cash_after = cash_before - |s|*p + C],
    [position_size_after = position_size_before + s], and the revalued
    position value grows by [s*p].  The day's ledger carries exactly these
    values, and the day completes whenever the running maximum is
    positive. *)
Theorem open_order_settlement (bt : t) (s p : Q) :
  Qabs s * p + t_cost bt <= cash bt ->
  let bt1 := settle bt (Size s) p in
  cash bt1 == cash bt - Qabs s * p + t_cost bt /\
  position_size bt1 == position_size bt + s /\
  position_value bt1 == position_value (mark_to_market bt p) + s * p /\
  (forall bt', day bt (Size s) (Fin p) = Ok bt' -> same_position bt' bt1) /\
  (0 < max_value bt -> exists bt', day bt (Size s) (Fin p) = Ok bt').
Proof.
  intros Hcash bt1.
  assert (E : bt1 =
    {| t_cost := t_cost bt; initial_value := initial_value bt;
       cash := cash bt - (Qabs s * p - t_cost bt);
       position_value := position_value (mark_to_market bt p) + s * p;
       position_size := position_size bt + s;
       prev_price := Fin p;
       max_value := max_value bt; pnl := pnl bt; drawdown := drawdown bt |}).
  { subst bt1. unfold settle, apply_order.
    replace (Qle_bool _ _) with true; [reflexivity|].
    symmetry. apply Qle_bool_iff. exact Hcash. }
  split; [rewrite E; cbn; ring|].
  split; [rewrite E; reflexivity|].
  split; [rewrite E; reflexivity|].
  apply day_present.
Qed.

Lemma open_order_settlement_witness :
  let bt := start 1000 (example_kwargs 2) in
  Qabs 10 * 9 + t_cost bt <= cash bt /\
  cash (settle bt (Size 10) 9) == 1000 - 90 + (1 # 10) /\
  position_size (settle bt (Size 10) 9) == 10 /\
  exists bt', day bt (Size 10) (Fin 9) = Ok bt'.
Proof.
  assert (H : Qabs 10 * 9 + t_cost (start 1000 (example_kwargs 2))
              <= cash (start 1000 (example_kwargs 2))).
  { unfold Qle; simpl; lia. }
  pose proof (open_order_settlement (start 1000 (example_kwargs 2)) 10 9 H)
    as (Hc & Hs & _ & _ & Hd).
  cbv zeta. split; [exact H|]. split; [exact Hc|]. split; [exact Hs|].
  apply Hd. reflexivity.
Defined.

(** C4.  On a day with a price, the order [close] adds the revalued
    position value [V] minus the cost to the cash,
    [cash_after = cash_before + V - C], and leaves a position value of 0. *)
Theorem close_order_settlement (bt : t) (p : Q) :
  let V := position_value (mark_to_market bt p) in
  let bt1 := settle bt Close p in
  cash bt1 == cash bt + V - t_cost bt /\
  position_value bt1 = 0 /\
  (forall bt', day bt Close (Fin p) = Ok bt' -> same_position bt' bt1) /\
  (0 < max_value bt -> exists bt', day bt Close (Fin p) = Ok bt').
Proof.
  cbv zeta.
  split; [unfold settle; cbn; ring|].
  split; [reflexivity|].
  apply day_present.
Qed.

Lemma close_order_settlement_witness :
  let bt := settle (start 1000 (example_kwargs 2)) (Size 10) 9 in
  0 < max_value bt /\
  cash (settle bt Close 12) == cash bt + position_value (mark_to_market bt 12) - (1 # 10) /\
  exists bt', day bt Close (Fin 12) = Ok bt'.
Proof.
  cbv zeta.
  pose proof (close_order_settlement
                (settle (start 1000 (example_kwargs 2)) (Size 10) 9) 12)
    as (Hc & _ & _ & Hd).
  split; [reflexivity|]. split; [exact Hc|]. apply Hd. reflexivity.
Defined.




End Settlement.

(** ** The rolling tracker (C2, C7) *)

Section TrackerFacts.

Import Tracker.

Lemma pop_snoc (w : list float64) (x : float64) : pop (w ++ [x]) = w.
Proof. unfold pop. apply removelast_last. Qed.

Lemma mean_of_total (w : list float64) :
  w <> [] -> exists m, mean_of w = Ok m.
Proof. destruct w; [congruence|]. intros _. eexists. reflexivity. Qed.

Lemma stats_total (w : list float64) :
  w <> [] -> exists m s, stats w = Ok (m, s).
Proof.
  intros Hw. unfold stats.
  destruct (existsb isnan w); [eexists _, _; reflexivity|].
  destruct (mean_of_total w Hw) as [m ->]. cbn.
  destruct (mean_of_total (map (fun v => fmul (fsub v m) (fsub v m)) w)) as [sd ->].
  { destruct w; [congruence|discriminate]. }
  cbn. eexists _, _. reflexivity.
Qed.

(** Once the window holds at least [n] prices (and is not empty), an
    update leaves it as it was: the price just appended is the one that
    [pop] removes, and the statistics are those of the old window. *)
Lemma call_full (tr : t) (date : Z) (price : float64) :
  (n tr <= Z.of_nat (length (price_window tr)))%Z ->
  price_window tr <> [] ->
  exists m s,
    stats (price_window tr) = Ok (m, s) /\
    call tr date price =
      Ok {| prev_date := Some date; prev_price := price;
            day_return := return_of (prev_price tr) price;
            n := n tr; price_window := price_window tr;
            moving_average := m; std := s |}.
Proof.
  intros Hn Hw. destruct (stats_total _ Hw) as (m & s & Hs).
  exists m, s. split; [exact Hs|].
  unfold call. rewrite length_app. cbn [length].
  replace (_ >? _)%Z with true by (symmetry; apply Z.gtb_lt; lia).
  rewrite pop_snoc, Hs. reflexivity.
Qed.

(** While the window holds fewer than [n] prices, an update only appends. *)
Lemma call_warming (k : Z) (w : list float64) (date : Z) (price : float64) :
  (Z.of_nat (length w) < k)%Z ->
  call (warming k w) date price = Ok (warming k (w ++ [price])).
Proof.
  intros Hk. unfold call. cbn [price_window n warming].
  rewrite length_app. cbn [length].
  replace (_ >? _)%Z with false; [reflexivity|].
  symmetry. rewrite Z.gtb_ltb. apply Z.ltb_ge. lia.
Qed.

Lemma feed_warming (k : Z) (obs : list (Z * float64)) :
  forall w : list float64,
    (Z.of_nat (length w + length obs) <= k)%Z ->
    feed (warming k w) obs = Ok (warming k (w ++ map snd obs)).
Proof.
  induction obs as [|[d p] obs IH]; intros w Hk; cbn [feed map snd].
  - rewrite app_nil_r. reflexivity.
  - cbn [length] in Hk. rewrite call_warming by lia. cbn.
    rewrite IH by (rewrite length_app; cbn [length]; lia).
    rewrite <- app_assoc. reflexivity.
Qed.

(** C2.  A tracker with window size 2 that has seen 1 and 2 is updated
    with 3: the window it keeps is [1, 2], not the two most recent prices
    [2, 3], and mean and variance are those of [1, 2] (3/2 and 1/4, where
    [2, 3] has mean 5/2). *)
Theorem tracker_update_keeps_oldest :
  exists tr v,
    feed (init 2) [(1, Fin 1); (2, Fin 2); (3, Fin 3)]%Z = Ok tr /\
    price_window tr = [Fin 1; Fin 2] /\
    price_window tr <> [Fin 2; Fin 3] /\
    moving_average tr = Fin (3 # 2) /\
    std tr = Fin v /\ v == 1 # 4.
Proof.
  eexists _, _. split; [vm_compute; reflexivity|].
  cbn. repeat split; [discriminate].
Qed.

End TrackerFacts.

(** ** Signal and strategy while the window fills (C7) *)

Section WarmUp.

Variable kw : kwargs.

Lemma decide_signal_warming (sg : StdDevPairSignal.t) (w : list float64) :
  StdDevPairSignal.decide_signal sg (warming (kw_n_days kw) w) = 0.
Proof.
  unfold StdDevPairSignal.decide_signal. cbn.
  rewrite !Qltb_irrefl_eq; [reflexivity| |]; ring.
Qed.

Lemma observation_length (r : row) : (length (observation kw r) <= 1)%nat.
Proof.
  unfold observation.
  destruct (r !! kw_asset_b kw) as [[?|]|];
    destruct (r !! kw_asset_a kw) as [[?|]|]; cbn; lia.
Qed.

(** One call of the signal on a warming tracker: the signal is 0 and the
    tracker is still warming, its window extended by the day's
    observation. *)
Lemma signal_call_warming (w : list float64) (index : Z) (r : row) :
  has_columns kw r ->
  (Z.of_nat (length (w ++ observation kw r)) <= kw_n_days kw)%Z ->
  StdDevPairSignal.call (warming_signal kw w) index r
  = Ok (warming_signal kw (w ++ observation kw r), (kw_asset_a kw, 0)).
Proof.
  intros [[a Ha] [b Hb]] Hlen.
  unfold observation in *.
  unfold StdDevPairSignal.call, getitem. cbn.
  rewrite Ha, Hb in *. cbn.
  destruct b as [b|]; cbn; [|rewrite app_nil_r; reflexivity].
  destruct a as [a|]; cbn; [|rewrite app_nil_r; reflexivity].
  rewrite length_app in Hlen. cbn [length] in Hlen.
  rewrite call_warming by lia. cbn.
  rewrite decide_signal_warming. reflexivity.
Qed.

Lemma strategy_call_warming (w : list float64) (index : Z) (r : row) :
  has_columns kw r ->
  (Z.of_nat (length (w ++ observation kw r)) <= kw_n_days kw)%Z ->
  FuturesStdPairStrategy.call (warming_strategy kw w) index r
  = Ok (warming_strategy kw (w ++ observation kw r), (kw_asset_a kw, Close)).
Proof.
  intros Hc Hlen. unfold FuturesStdPairStrategy.call.
  cbn [FuturesStdPairStrategy.stdsignal warming_strategy
       FuturesStdPairStrategy.with_signal].
  rewrite signal_call_warming by assumption. reflexivity.
Qed.

Lemma signal_trace_warming (rows : list (Z * row)) :
  forall w : list float64,
    Forall (fun ir => has_columns kw ir.2) rows ->
    (Z.of_nat (length (w ++ observations kw rows)) <= kw_n_days kw)%Z ->
    trace StdDevPairSignal.call (warming_signal kw w) rows
    = Ok (warming_signal kw (w ++ observations kw rows),
          map (fun _ => (kw_asset_a kw, 0)) rows).
Proof.
  induction rows as [|[i r] rows IH]; intros w Hc Hlen; cbn [trace observations map].
  - rewrite app_nil_r. reflexivity.
  - inversion Hc as [|? ? Hr Hrest]; subst. cbn [snd] in Hr.
    cbn [observations] in Hlen. rewrite app_assoc in Hlen.
    rewrite signal_call_warming; [|assumption|].
    2:{ rewrite length_app in Hlen. lia. }
    cbn. rewrite IH by assumption. cbn.
    rewrite app_assoc. reflexivity.
Qed.

Lemma strategy_trace_warming (rows : list (Z * row)) :
  forall w : list float64,
    Forall (fun ir => has_columns kw ir.2) rows ->
    (Z.of_nat (length (w ++ observations kw rows)) <= kw_n_days kw)%Z ->
    trace FuturesStdPairStrategy.call (warming_strategy kw w) rows
    = Ok (warming_strategy kw (w ++ observations kw rows),
          map (fun _ => (kw_asset_a kw, Close)) rows).
Proof.
  induction rows as [|[i r] rows IH]; intros w Hc Hlen; cbn [trace observations map].
  - rewrite app_nil_r. reflexivity.
  - inversion Hc as [|? ? Hr Hrest]; subst. cbn [snd] in Hr.
    cbn [observations] in Hlen. rewrite app_assoc in Hlen.
    rewrite strategy_call_warming; [|assumption|].
    2:{ rewrite length_app in Hlen. lia. }
    cbn. rewrite IH by assumption. cbn.
    rewrite app_assoc. reflexivity.
Qed.

End WarmUp.

(** ** The loop over the days (C6) *)

Section Loop.

Import Backtest.

Context {S : Type} (call : S -> Z -> row -> result (S * (string * order))).

Lemma loop_app (pre suf : list (Z * row)) :
  forall (s : S) (bt : t),
    loop call s bt (pre ++ suf)
    = '(s1, bt1) ← loop call s bt pre; loop call s1 bt1 suf.
Proof.
  induction pre as [|[i r] pre IH]; intros s bt; cbn [loop app].
  - reflexivity.
  - destruct (call s i r) as [[s' [asset o]]|e]; [|reflexivity]. cbn.
    destruct (getitem r asset) as [price|e]; [|reflexivity]. cbn.
    destruct (day bt o price) as [bt'|e]; [|reflexivity]. cbn.
    apply IH.
Qed.

(** Every day, with or without a price, appends one entry to each
    series. *)
Lemma day_appends (bt bt' : t) (o : order) (price : float64) :
  day bt o price = Ok bt' ->
  exists v d, pnl bt' = pnl bt ++ [v] /\ drawdown bt' = drawdown bt ++ [d].
Proof.
  destruct price as [p|]; cbn [day]; intros H.
  - apply record_inv in H. cbv zeta in H.
    destruct H as (_ & _ & _ & _ & _ & _ & Hp & Hd).
    destruct (settle_fixed bt o p) as (_ & _ & _ & Ep & Ed & _).
    rewrite Ep in Hp. rewrite Ed in Hd. eauto.
  - injection H as <-. cbn. eauto.
Qed.

Lemma loop_lengths (rows : list (Z * row)) :
  forall (s s' : S) (bt bt' : t),
    loop call s bt rows = Ok (s', bt') ->
    length (pnl bt') = (length (pnl bt) + length rows)%nat /\
    length (drawdown bt') = (length (drawdown bt) + length rows)%nat.
Proof.
  induction rows as [|[i r] rows IH]; intros s s' bt bt' H; cbn [loop] in H.
  - injection H as _ <-. cbn [length]. lia.
  - destruct (call s i r) as [[s1 [asset o]]|e]; [|discriminate]. cbn in H.
    destruct (getitem r asset) as [price|e]; [|discriminate]. cbn in H.
    destruct (day bt o price) as [bt1|e] eqn:D; [|discriminate]. cbn in H.
    apply IH in H. apply day_appends in D. destruct D as (v & d & Ep & Ed).
    rewrite Ep, Ed, !length_app in H. cbn [length] in *. lia.
Qed.

End Loop.

Section Series.

Import Backtest.

(** C6.  If the constructor runs over a table, it also runs over every
    prefix [pre] of it, and after the prefix both series have as many
    entries as the prefix has days.  Each day appends one entry to each
    series; a day whose price is missing appends the carried value
    [position_value + cash] and the drawdown 0. *)
Theorem series_lengths :
  (forall (pre suf : list (Z * row)) (strategy : string + Strategy)
          (cash0 : Q) (kw : kwargs) (bt : t),
      init (pre ++ suf) strategy cash0 kw = Ok bt ->
      exists bt1,
        init pre strategy cash0 kw = Ok bt1 /\
        length (pnl bt1) = length pre /\
        length (drawdown bt1) = length pre) /\
  (forall (bt : t) (o : order),
      day bt o NaN = Ok (skip bt) /\
      pnl (skip bt) = pnl bt ++ [position_value bt + cash bt] /\
      drawdown (skip bt) = drawdown bt ++ [0]) /\
  (forall (bt bt' : t) (o : order) (price : float64),
      day bt o price = Ok bt' ->
      length (pnl bt') = S (length (pnl bt)) /\
      length (drawdown bt') = S (length (drawdown bt))).
Proof.
  split; [|split].
  - intros pre suf strategy cash0 kw bt. unfold init.
    destruct (resolve strategy kw) as [st|e]; [|discriminate]. cbn.
    rewrite loop_app.
    destruct (loop (strategy_call st) (strategy_self st) (start cash0 kw) pre)
      as [[s1 bt1]|e] eqn:L; [|discriminate].
    intros _. exists bt1. cbn. split; [reflexivity|].
    apply loop_lengths in L. cbn in L. exact L.
  - intros bt o. repeat split.
  - intros bt bt' o price H. apply day_appends in H.
    destruct H as (v & d & -> & ->). rewrite !length_app. cbn. lia.
Qed.

Lemma series_lengths_witness :
  let pre := [(1, row2 (Fin 10) (Fin 10)); (2, row2 NaN (Fin 9))]%Z in
  let suf := [(3, row2 (Fin 9) (Fin 12))]%Z in
  (exists bt,
      init (pre ++ suf) (inl "Future_Pairs_Strategy"%string) 1000 (example_kwargs 1)
      = Ok bt) /\
  exists bt1,
    init pre (inl "Future_Pairs_Strategy"%string) 1000 (example_kwargs 1) = Ok bt1 /\
    length (pnl bt1) = 2%nat /\ length (drawdown bt1) = 2%nat.
Proof.
  cbv zeta.
  destruct series_lengths as (H & _ & _).
  destruct (init ([(1, row2 (Fin 10) (Fin 10)); (2, row2 NaN (Fin 9))]%Z
                    ++ [(3, row2 (Fin 9) (Fin 12))]%Z)
              (inl "Future_Pairs_Strategy"%string) 1000 (example_kwargs 1))
    as [bt|e] eqn:E; [|vm_compute in E; discriminate E].
  split; [exists bt; reflexivity|].
  exact (H _ _ _ _ _ _ E).
Defined.

End Series.

(** ** Flat days and the transaction cost (C10) *)

Section FlatDays.

Import Backtest.

Lemma day_fixed (bt bt' : t) (o : order) (price : float64) :
  day bt o price = Ok bt' ->
  t_cost bt' = t_cost bt /\ initial_value bt' = initial_value bt /\
  max_value bt <= max_value bt'.
Proof.
  destruct price as [p|]; cbn [day]; intros H.
  - apply record_inv in H. cbv zeta in H.
    destruct H as (_ & Ht & Hi & _ & Hm & _).
    destruct (settle_fixed bt o p) as (Et & Ei & Em & _).
    rewrite Ht, Hi, Hm, Et, Ei, Em.
    split; [reflexivity|]. split; [reflexivity|]. apply Qmax_ge_l.
  - injection H as <-. cbn. split; [reflexivity|].
    split; [reflexivity|]. apply Qle_refl.
Qed.

Lemma day_total (bt : t) (o : order) (price : float64) :
  0 < max_value bt -> exists bt', day bt o price = Ok bt'.
Proof.
  destruct price as [p|]; [apply day_present|].
  intros _. eexists. reflexivity.
Qed.

(** The order [close] on a ledger without position value: the cost is
    debited on a day with a price, nothing happens on a day without. *)
Lemma day_close_flat (bt : t) (price : float64) :
  0 < max_value bt ->
  position_value bt == 0 ->
  exists bt',
    day bt Close price = Ok bt' /\
    cash bt' == cash bt - (if isnan price then 0 else t_cost bt) /\
    position_value bt' == 0 /\
    position_size bt' = position_size bt /\
    t_cost bt' = t_cost bt /\
    0 < max_value bt'.
Proof.
  intros Hmax Hpv.
  destruct (day_total bt Close price Hmax) as [bt' D].
  exists bt'. split; [exact D|].
  destruct (day_fixed _ _ _ _ D) as (Ht & _ & Hm).
  assert (Hm' : 0 < max_value bt') by (eapply Qlt_le_trans; eassumption).
  destruct price as [p|].
  - destruct (day_present bt Close p) as [Hs _].
    destruct (Hs _ D) as (Ec & Ev & Es).
    rewrite Ec, Ev, Es. unfold settle. cbn.
    split; [rewrite Hpv; ring|]. split; [reflexivity|]. tauto.
  - injection D as <-. cbn.
    split; [ring|]. split; [exact Hpv|]. tauto.
Qed.

End FlatDays.

Section WarmUpRun.

Import Backtest.

Variable kw : kwargs.

(** The run while the tracker warms up: every order is [close], the
    position value stays 0 and each day with a price costs [t_cost]. *)
Lemma loop_warming (rows : list (Z * row)) :
  forall (w : list float64) (bt : t),
    Forall (fun ir => has_columns kw ir.2) rows ->
    (Z.of_nat (length (w ++ observations kw rows)) <= kw_n_days kw)%Z ->
    0 < max_value bt ->
    position_value bt == 0 ->
    exists bt',
      loop FuturesStdPairStrategy.call (warming_strategy kw w) bt rows
      = Ok (warming_strategy kw (w ++ observations kw rows), bt') /\
      cash bt' == cash bt - inject_Z (Z.of_nat (present_days kw rows)) * t_cost bt /\
      position_value bt' == 0 /\
      position_size bt' = position_size bt.
Proof.
  induction rows as [|[i r] rows IH]; intros w bt Hc Hlen Hmax Hpv;
    cbn [loop observations present_days].
  - exists bt. rewrite app_nil_r. split; [reflexivity|].
    split; [cbn; ring|]. split; [exact Hpv|reflexivity].
  - inversion Hc as [|? ? Hr Hrest]; subst. cbn [snd] in Hr.
    cbn [observations] in Hlen. rewrite app_assoc in Hlen.
    rewrite strategy_call_warming; [|assumption|].
    2:{ rewrite length_app in Hlen. lia. }
    cbn. unfold getitem, present.
    destruct Hr as [[price Hp] _]. rewrite Hp. cbn.
    destruct (day_close_flat bt price Hmax Hpv)
      as (bt1 & D & Ec & Ev & Es & Et & Hm).
    rewrite D. cbn.
    destruct (IH _ bt1 Hrest Hlen Hm Ev) as (bt' & L & Ec' & Ev' & Es').
    exists bt'. rewrite app_assoc. split; [exact L|].
    split; [|split; [exact Ev'|congruence]].
    rewrite Ec', Ec, Et.
    rewrite Nat2Z.inj_add, inject_Z_plus.
    destruct price as [p|]; cbn; ring.
Qed.

End WarmUpRun.

(** ** Claims on the warm-up (C7, C10) *)

Section WarmUpClaims.

Import Backtest.

(** C7, as the code has it.  The claim has mean and variance undefined
    (NaN) before the window is full; the tracker starts them at 0.0 and
    does not touch them until an update finds the window past its size. *)
Lemma warm_up_statistics_are_numbers :
  exists tr,
    Tracker.feed (Tracker.init 2) [(1%Z, Fin 10)] = Ok tr /\
    isnan (Tracker.moving_average tr) = false /\
    isnan (Tracker.std tr) = false.
Proof. eexists. split; [reflexivity|]. split; reflexivity. Qed.

(** C7 (amended).  While no more than [n] observations have been fed to a
    fresh tracker, its window is the list of these observations and mean,
    variance and day return keep the initial value 0.0 (they are not NaN).
    On each of these days the signal is 0 and the strategy returns the
    order [close]. *)
Theorem warm_up_is_flat :
  (forall (k : Z) (obs : list (Z * float64)),
      (Z.of_nat (length obs) <= k)%Z ->
      exists tr,
        Tracker.feed (Tracker.init k) obs = Ok tr /\
        Tracker.price_window tr = map snd obs /\
        Tracker.moving_average tr = Fin 0 /\
        Tracker.std tr = Fin 0 /\
        Tracker.day_return tr = Fin 0) /\
  (forall (kw : kwargs) (rows : list (Z * row)),
      Forall (fun ir => has_columns kw ir.2) rows ->
      (Z.of_nat (length (observations kw rows)) <= kw_n_days kw)%Z ->
      exists sg s,
        trace StdDevPairSignal.call (StdDevPairSignal.init kw) rows
        = Ok (sg, map (fun _ => (kw_asset_a kw, 0)) rows) /\
        Tracker.price_window (StdDevPairSignal.tracker sg) = observations kw rows /\
        Tracker.moving_average (StdDevPairSignal.tracker sg) = Fin 0 /\
        Tracker.std (StdDevPairSignal.tracker sg) = Fin 0 /\
        trace FuturesStdPairStrategy.call (FuturesStdPairStrategy.init kw) rows
        = Ok (s, map (fun _ => (kw_asset_a kw, Close)) rows)).
Proof.
  split.
  - intros k obs Hk. eexists. split.
    + apply (feed_warming k obs []). cbn. exact Hk.
    + cbn. repeat split.
  - intros kw rows Hc Hlen. eexists _, _. split.
    + apply (signal_trace_warming kw rows []); assumption.
    + cbn. repeat split.
      apply (strategy_trace_warming kw rows []); assumption.
Qed.

Lemma warm_up_is_flat_witness :
  let rows := [(1, row2 (Fin 10) (Fin 10)); (2, row2 (Fin 11) (Fin 9))]%Z in
  (Z.of_nat (length (observations (example_kwargs 2) rows)) <= 2)%Z /\
  exists sg s,
    trace StdDevPairSignal.call (StdDevPairSignal.init (example_kwargs 2)) rows
    = Ok (sg, [("A Price"%string, 0); ("A Price"%string, 0)]) /\
    Tracker.std (StdDevPairSignal.tracker sg) = Fin 0 /\
    trace FuturesStdPairStrategy.call
      (FuturesStdPairStrategy.init (example_kwargs 2)) rows
    = Ok (s, [("A Price"%string, Close); ("A Price"%string, Close)]).
Proof.
  cbv zeta.
  assert (Hlen : (Z.of_nat (length (observations (example_kwargs 2)
                   [(1, row2 (Fin 10) (Fin 10)); (2, row2 (Fin 11) (Fin 9))]%Z))
                  <= 2)%Z) by (vm_compute; discriminate).
  split; [exact Hlen|].
  destruct warm_up_is_flat as [_ H].
  destruct (H (example_kwargs 2)
              [(1, row2 (Fin 10) (Fin 10)); (2, row2 (Fin 11) (Fin 9))]%Z)
    as (sg & s & H1 & _ & _ & H2 & H3).
  - repeat constructor; cbn; eexists; reflexivity.
  - exact Hlen.
  - exists sg, s. split; [exact H1|]. split; [exact H2|exact H3].
Defined.

(** C10.  On a day with a price, the order [close] on a ledger without
    position value debits the transaction cost: [cash_after = cash_before -
    C], a strict decrease for a positive cost.  The strategy returns
    [close] whenever the signal is 0.  Hence a run that stays within the
    warm-up of the tracker ends with the initial cash less the cost times
    the number of days on which the traded asset has a price. *)
Theorem flat_day_costs :
  (forall (bt : t) (p : Q),
      position_value bt == 0 ->
      let bt1 := settle bt Close p in
      cash bt1 == cash bt - t_cost bt /\
      (0 < t_cost bt -> cash bt1 < cash bt) /\
      (forall bt', day bt Close (Fin p) = Ok bt' -> same_position bt' bt1) /\
      (0 < max_value bt -> exists bt', day bt Close (Fin p) = Ok bt')) /\
  (forall (s : FuturesStdPairStrategy.t) (index : Z) (r : row)
          (sg : StdDevPairSignal.t) (asset : string),
      StdDevPairSignal.call (FuturesStdPairStrategy.stdsignal s) index r
      = Ok (sg, (asset, 0)) ->
      FuturesStdPairStrategy.call s index r
      = Ok (FuturesStdPairStrategy.with_signal s sg, (asset, Close))) /\
  (forall (kw : kwargs) (rows : list (Z * row)) (name : string) (cash0 : Q),
      recognized (lower name) = true ->
      0 < cash0 ->
      Forall (fun ir => has_columns kw ir.2) rows ->
      (Z.of_nat (length (observations kw rows)) <= kw_n_days kw)%Z ->
      exists bt,
        init rows (inl name) cash0 kw = Ok bt /\
        cash bt == cash0 - inject_Z (Z.of_nat (present_days kw rows))
                           * get (kw_C kw) (1 # 10)).
Proof.
  split; [|split].
  - intros bt p Hpv bt1.
    assert (Ec : cash bt1 == cash bt - t_cost bt).
    { subst bt1. unfold settle. cbn. rewrite Hpv. ring. }
    split; [exact Ec|]. split; [|apply day_present].
    intros Hc. rewrite Ec. lra.
  - intros s index r sg asset H.
    unfold FuturesStdPairStrategy.call. rewrite H. reflexivity.
  - intros kw rows name cash0 Hn Hcash Hc Hlen.
    unfold init, resolve. rewrite Hn. cbn.
    destruct (loop_warming kw rows [] (start cash0 kw) Hc Hlen)
      as (bt & L & Ec & _); [exact Hcash|reflexivity|].
    exists bt. split; [|exact Ec].
    change (FuturesStdPairStrategy.init kw) with (warming_strategy kw []).
    rewrite L. reflexivity.
Qed.

End WarmUpClaims.

(** ** Errors and termination of a run of the pair strategy *)

Section PairRun.

Import Backtest.

Lemma stats_error (w : list float64) (e : exn) :
  Tracker.stats w = Err e -> e = ZeroDivisionError.
Proof.
  unfold Tracker.stats. destruct (existsb isnan w); [discriminate|].
  destruct w as [|x w]; cbn; intros H; [congruence|discriminate].
Qed.

Lemma tracker_call_error (tr : Tracker.t) (d : Z) (p : float64) (e : exn) :
  Tracker.call tr d p = Err e -> e = ZeroDivisionError.
Proof.
  unfold Tracker.call. destruct (_ >? _)%Z; [|discriminate].
  destruct (Tracker.stats _) as [[m sd]|e'] eqn:St; cbn; [discriminate|].
  intros H. assert (e' = e) as <- by congruence. eapply stats_error, St.
Qed.

Lemma tracker_call_total (tr : Tracker.t) (d : Z) (p : float64) :
  (1 <= Tracker.n tr)%Z ->
  exists tr', Tracker.call tr d p = Ok tr' /\ Tracker.n tr' = Tracker.n tr.
Proof.
  intros Hn. unfold Tracker.call.
  destruct (_ >? _)%Z eqn:G; [|eexists; split; reflexivity].
  apply Z.gtb_lt in G. rewrite length_app in G. cbn [length] in G.
  rewrite pop_snoc.
  destruct (stats_total (Tracker.price_window tr)) as (m & sd & ->).
  { destruct (Tracker.price_window tr); [cbn in G; lia|discriminate]. }
  cbn. eexists; split; reflexivity.
Qed.

Lemma getitem_error (r : row) (key : string) (e : exn) :
  getitem r key = Err e -> run_error e.
Proof.
  unfold getitem. destruct (r !! key); [discriminate|].
  intros H. injection H as <-. exact I.
Qed.

Lemma strategy_call_error (s : FuturesStdPairStrategy.t) (i : Z) (r : row) (e : exn) :
  FuturesStdPairStrategy.call s i r = Err e -> run_error e.
Proof.
  unfold FuturesStdPairStrategy.call, StdDevPairSignal.call.
  destruct (getitem r (StdDevPairSignal.asset_b _)) as [b|e1] eqn:Gb; cbn;
    [|intros H; injection H as <-; eapply getitem_error, Gb].
  destruct (isnan b); cbn; [discriminate|].
  destruct (getitem r (StdDevPairSignal.asset_a _)) as [a|e1] eqn:Ga; cbn;
    [|intros H; injection H as <-; eapply getitem_error, Ga].
  destruct (isnan a); cbn; [discriminate|].
  destruct (isnan _); cbn; [discriminate|].
  destruct (Tracker.call _ _ _) as [tr|e1] eqn:T; cbn.
  - repeat (destruct (Qeq_bool _ _)); discriminate.
  - intros H. injection H as <-.
    apply tracker_call_error in T. rewrite T. exact I.
Qed.

Lemma day_error (bt : t) (o : order) (price : float64) (e : exn) :
  day bt o price = Err e -> e = ZeroDivisionError.
Proof.
  destruct price as [p|]; cbn [day]; [|discriminate].
  unfold record. destruct (Qeq_bool _ _); [|discriminate].
  intros H. injection H as <-. reflexivity.
Qed.

Lemma loop_error (rows : list (Z * row)) :
  forall (s : FuturesStdPairStrategy.t) (bt : t) (e : exn),
    loop FuturesStdPairStrategy.call s bt rows = Err e -> run_error e.
Proof.
  induction rows as [|[i r] rows IH]; intros s bt e; cbn [loop]; [discriminate|].
  destruct (FuturesStdPairStrategy.call s i r) as [[s' [asset o]]|e1] eqn:C; cbn;
    [|intros H; injection H as <-; eapply strategy_call_error, C].
  destruct (getitem r asset) as [price|e1] eqn:G; cbn;
    [|intros H; injection H as <-; eapply getitem_error, G].
  destruct (day bt o price) as [bt'|e1] eqn:D; cbn;
    [apply IH|].
  intros H. injection H as <-. apply day_error in D. rewrite D. exact I.
Qed.

Variable kw : kwargs.
Hypothesis window_positive : (1 <= kw_n_days kw)%Z.

Lemma strategy_for_init : strategy_for kw (FuturesStdPairStrategy.init kw).
Proof. repeat split. Qed.

Lemma strategy_call_total (s : FuturesStdPairStrategy.t) (i : Z) (r : row) :
  strategy_for kw s ->
  has_columns kw r ->
  exists s' o,
    FuturesStdPairStrategy.call s i r = Ok (s', (kw_asset_a kw, o)) /\
    strategy_for kw s'.
Proof.
  intros (Ha & Hb & Hn) [[a Ea] [b Eb]].
  unfold FuturesStdPairStrategy.call, StdDevPairSignal.call, getitem.
  cbv zeta in Ha, Hb, Hn.
  rewrite Ha, Hb, Ea, Eb. cbn.
  assert (Keep : strategy_for kw (FuturesStdPairStrategy.with_signal s
                                    (FuturesStdPairStrategy.stdsignal s))).
  { repeat split; assumption. }
  destruct (isnan b); cbn; [eexists _, _; split; [reflexivity|exact Keep]|].
  destruct (isnan a); cbn; [eexists _, _; split; [reflexivity|exact Keep]|].
  destruct (isnan _); cbn; [eexists _, _; split; [reflexivity|exact Keep]|].
  destruct (tracker_call_total
              (StdDevPairSignal.tracker (FuturesStdPairStrategy.stdsignal s)) i b)
    as (tr & -> & En); [lia|].
  cbn.
  repeat (destruct (Qeq_bool _ _)); eexists _, _;
    (split; [reflexivity|]); repeat split; cbn; congruence.
Qed.

Lemma loop_total (rows : list (Z * row)) :
  forall (s : FuturesStdPairStrategy.t) (bt : t),
    strategy_for kw s ->
    Forall (fun ir => has_columns kw ir.2) rows ->
    0 < max_value bt ->
    exists s' bt', loop FuturesStdPairStrategy.call s bt rows = Ok (s', bt').
Proof.
  induction rows as [|[i r] rows IH]; intros s bt Hs Hc Hmax; cbn [loop].
  - eexists _, _. reflexivity.
  - inversion Hc as [|? ? Hr Hrest]; subst. cbn [snd] in Hr.
    destruct (strategy_call_total s i r Hs Hr) as (s1 & o & -> & Hs1). cbn.
    destruct Hr as [[price Hp] _]. unfold getitem. rewrite Hp. cbn.
    destruct (day_total bt o price Hmax) as [bt1 D]. rewrite D. cbn.
    apply IH; [assumption..|].
    destruct (day_fixed _ _ _ _ D) as (_ & _ & Hm).
    eapply Qlt_le_trans; eassumption.
Qed.

End PairRun.

(** ** Position value and position size (C1) *)

Section Position.

Import Backtest.




End Position.

(** ** Drawdown (C5) *)

Section Drawdown.

Import Backtest.

(** C5, as the code has it.  One day, initial cash 0.05 and the default
    cost 0.1: the first order is [close], the total value is -0.05, the
    running maximum stays at 0.05 and the drawdown of the day is 2. *)
Lemma drawdown_above_one :
  exists bt d,
    init [(1%Z, row2 (Fin 10) (Fin 10))] (inl "future_pairs_strategy"%string)
      (1 # 20) (example_kwargs 2) = Ok bt /\
    0 < max_value bt /\
    drawdown bt = [d] /\
    ~ (0 <= d /\ d <= 1).
Proof.
  eexists _, _. split; [vm_compute; reflexivity|].
  split; [reflexivity|]. split; [reflexivity|].
  intros [_ H]. apply H. reflexivity.
Qed.

(** C5 (amended).  On a day with a price the drawdown appended is
    [(max_value - total) / max_value], for the day's total value and the
    running maximum after the day; when that maximum is positive the
    drawdown is at most 1 exactly when the total value is not negative,
    and at least 0 exactly when the total value does not exceed the
    maximum.  On a day without a price the drawdown appended is 0. *)
Theorem drawdown_bounds :
  (forall (bt bt' : t) (o : order) (p : Q),
      day bt o (Fin p) = Ok bt' ->
      0 < max_value bt' ->
      let total := position_value bt' + cash bt' in
      exists d,
        drawdown bt' = drawdown bt ++ [d] /\
        pnl bt' = pnl bt ++ [total] /\
        d == (max_value bt' - total) / max_value bt' /\
        (d <= 1 <-> 0 <= total) /\
        (0 <= d <-> total <= max_value bt')) /\
  (forall (bt : t) (o : order),
      exists bt',
        day bt o NaN = Ok bt' /\ drawdown bt' = drawdown bt ++ [0]).
Proof.
  split.
  - intros bt bt' o p D Hmax total. cbn [day] in D.
    apply record_inv in D. cbv zeta in D.
    destruct D as ((Ec & Ev & _) & _ & _ & _ & _ & _ & Hp & Hd).
    destruct (settle_fixed bt o p) as (_ & _ & _ & Ep & Ed & _).
    rewrite Ep in Hp. rewrite Ed in Hd. rewrite <- Ec, <- Ev in Hp, Hd.
    fold total in Hp, Hd.
    exists ((max_value bt' - total) / max_value bt').
    split; [exact Hd|]. split; [exact Hp|]. split; [reflexivity|].
    set (M := max_value bt') in *. set (d := (M - total) / M).
    assert (E : d * M == M - total).
    { unfold d. field. intros Z0. rewrite Z0 in Hmax.
      exact (Qlt_irrefl 0 Hmax). }
    split; split; intros H; nra.
  - intros bt o. exists (skip bt). split; reflexivity.
Qed.

Lemma drawdown_bounds_witness :
  let bt := start 1000 (example_kwargs 2) in
  exists bt' d,
    day bt Close (Fin 10) = Ok bt' /\
    0 < max_value bt' /\
    drawdown bt' = drawdown bt ++ [d] /\
    (d <= 1 <-> 0 <= position_value bt' + cash bt').
Proof.
  cbv zeta.
  destruct (day (start 1000 (example_kwargs 2)) Close (Fin 10))
    as [bt'|e] eqn:D; [|vm_compute in D; discriminate D].
  assert (Hmax : 0 < max_value bt').
  { vm_compute in D. injection D as <-. reflexivity. }
  destruct drawdown_bounds as [H _].
  destruct (H _ _ _ _ D Hmax) as (d & Hd & _ & _ & Hle & _).
  exists bt', d. split; [reflexivity|]. split; [exact Hmax|].
  split; [exact Hd|exact Hle].
Defined.

End Drawdown.

(** ** The strategy given by name (C9) *)

Section Resolution.

Import Backtest.

(** C9, as the code has it.  The name is recognized, yet the constructor
    raises: with a window of 0 days the first update of the tracker
    divides by the length of an empty window. *)
Lemma recognized_name_can_raise :
  recognized (lower "FuturePairsStrategy") = true /\
  init [(1%Z, row2 (Fin 10) (Fin 10))] (inl "FuturePairsStrategy"%string)
    1000000 (example_kwargs 0)
  = Err ZeroDivisionError.
Proof. split; vm_compute; reflexivity. Qed.

(** C9 (amended).  A strategy name that is not recognized makes the
    constructor fail with the key error of line 41 whatever the table is,
    so before any day is processed.  A recognized name is resolved to the
    pair strategy and an instance is taken as it is; the constructor then
    never fails with that key error, and with the pair strategy it fails
    with no error at all when the window is at least one day, the initial
    cash is positive and every row has both columns. *)
Theorem strategy_resolution :
  (forall (name : string) (dataset : list (Z * row)) (cash0 : Q) (kw : kwargs),
      recognized (lower name) = false ->
      init dataset (inl name) cash0 kw = Err (StrategyNotRecognized name)) /\
  (forall (name : string) (kw : kwargs),
      recognized (lower name) = true ->
      resolve (inl name) kw = Ok (FuturesStdPairStrategy.new kw) /\
      (forall (dataset : list (Z * row)) (cash0 : Q) (e : exn),
          init dataset (inl name) cash0 kw = Err e -> run_error e) /\
      (forall (dataset : list (Z * row)) (cash0 : Q),
          (1 <= kw_n_days kw)%Z ->
          0 < cash0 ->
          Forall (fun ir => has_columns kw ir.2) dataset ->
          exists bt, init dataset (inl name) cash0 kw = Ok bt)) /\
  (forall (instance : Strategy) (kw : kwargs),
      resolve (inr instance) kw = Ok instance).
Proof.
  split; [|split].
  - intros name dataset cash0 kw H. unfold init, resolve. rewrite H. reflexivity.
  - intros name kw H.
    assert (R : resolve (inl name) kw = Ok (FuturesStdPairStrategy.new kw)).
    { unfold resolve. rewrite H. reflexivity. }
    split; [exact R|]. split.
    + intros dataset cash0 e. unfold init. rewrite R. cbn.
      destruct (loop _ _ _ _) as [[s bt]|e1] eqn:L; cbn; [discriminate|].
      intros E. assert (e1 = e) as <- by congruence.
      eapply loop_error, L.
    + intros dataset cash0 Hn Hcash Hc. unfold init. rewrite R. cbn.
      destruct (loop_total kw Hn dataset (FuturesStdPairStrategy.init kw)
                  (start cash0 kw)) as (s & bt & ->);
        [apply strategy_for_init|exact Hc|exact Hcash|].
      exists bt. reflexivity.
  - intros instance kw. reflexivity.
Qed.

Lemma strategy_resolution_witness :
  recognized (lower "Momentum") = false /\
  init four_days (inl "Momentum"%string) 1000000 (example_kwargs 2)
  = Err (StrategyNotRecognized "Momentum") /\
  recognized (lower "Future_Pairs_Strategy") = true /\
  exists bt,
    init four_days (inl "Future_Pairs_Strategy"%string) 1000000 (example_kwargs 2)
    = Ok bt.
Proof.
  destruct strategy_resolution as (H1 & H2 & _).
  split; [reflexivity|]. split; [apply H1; reflexivity|].
  split; [reflexivity|].
  destruct (H2 "Future_Pairs_Strategy"%string (example_kwargs 2)) as (_ & _ & H);
    [reflexivity|].
  apply H.
  - cbn. lia.
  - reflexivity.
  - repeat constructor; cbn; eexists; reflexivity.
Defined.

End Resolution.

Section FlatDayWitness.

Import Backtest.

Lemma flat_day_costs_witness :
  let rows := [(1, row2 (Fin 10) (Fin 10)); (2, row2 NaN (Fin 9))]%Z in
  position_value (start 1000 (example_kwargs 2)) == 0 /\
  cash (settle (start 1000 (example_kwargs 2)) Close 10) == 1000 - (1 # 10) /\
  (Z.of_nat (length (observations (example_kwargs 2) rows)) <= 2)%Z /\
  exists bt,
    init rows (inl "future_pairs_strategy"%string) 1000 (example_kwargs 2) = Ok bt /\
    cash bt == 1000 - inject_Z 1 * (1 # 10).
Proof.
  cbv zeta.
  destruct flat_day_costs as (H1 & _ & H3).
  split; [reflexivity|].
  split.
  { destruct (H1 (start 1000 (example_kwargs 2)) 10) as (Hc & _);
      [reflexivity|exact Hc]. }
  assert (Hlen : (Z.of_nat (length (observations (example_kwargs 2)
                   [(1, row2 (Fin 10) (Fin 10)); (2, row2 NaN (Fin 9))]%Z))
                  <= 2)%Z) by (vm_compute; discriminate).
  split; [exact Hlen|].
  apply (H3 (example_kwargs 2)
            [(1, row2 (Fin 10) (Fin 10)); (2, row2 NaN (Fin 9))]%Z
            "future_pairs_strategy"%string 1000).
  - reflexivity.
  - reflexivity.
  - repeat constructor; cbn; eexists; reflexivity.
  - exact Hlen.
Defined.

End FlatDayWitness.

(** * Further properties of the code *)

(** ** The tracker over a whole sequence of observations *)

Section TrackerRuns.

Import Tracker.

Lemma feed_snoc (obs : list (Z * float64)) (d : Z) (p : float64) :
  forall tr : t,
    feed tr (obs ++ [(d, p)]) = tr' ← feed tr obs; call tr' d p.
Proof.
  induction obs as [|[d0 p0] obs IH]; intros tr; cbn [feed app].
  - change (Ok tr ≫= (fun tr' => call tr' d p)) with (call tr d p).
    destruct (call tr d p); reflexivity.
  - destruct (call tr d0 p0) as [tr1|e]; cbn; [apply IH|reflexivity].
Qed.

Lemma feed_snoc_inv (obs : list (Z * float64)) (d : Z) (p : float64) (tr tr' : t) :
  feed tr (obs ++ [(d, p)]) = Ok tr' ->
  exists tr0, feed tr obs = Ok tr0 /\ call tr0 d p = Ok tr'.
Proof.
  rewrite feed_snoc. destruct (feed tr obs) as [tr0|e]; cbn; [|discriminate].
  intros H. exists tr0. split; [reflexivity|exact H].
Qed.

Lemma feed_app (obs more : list (Z * float64)) :
  forall tr : t,
    feed tr (obs ++ more) = tr' ← feed tr obs; feed tr' more.
Proof.
  induction obs as [|[d p] obs IH]; intros tr; cbn [feed app].
  - reflexivity.
  - destruct (call tr d p) as [tr1|e]; cbn; [apply IH|reflexivity].
Qed.

(** The window and the size after any run of updates. *)
Lemma feed_window (k : Z) (obs : list (Z * float64)) :
  forall tr : t,
    feed (init k) obs = Ok tr ->
    price_window tr = take (Z.to_nat k) (prices obs) /\ n tr = k.
Proof.
  induction obs as [|[d p] obs IH] using rev_ind; intros tr H.
  - injection H as <-. split; [|reflexivity]. cbn. rewrite take_nil. reflexivity.
  - apply feed_snoc_inv in H. destruct H as (tr0 & F & C).
    destruct (IH _ F) as [W N]. unfold prices in *. rewrite map_app. cbn [map snd].
    assert (Hlen : length (price_window tr0)
                   = Nat.min (Z.to_nat k) (length (map snd obs))).
    { rewrite W. apply length_take. }
    unfold call in C. rewrite length_app in C. cbn [length] in C.
    destruct (_ >? _)%Z eqn:G.
    + apply Z.gtb_lt in G. rewrite N in G. rewrite pop_snoc in C.
      destruct (stats _) as [[m sd]|e]; cbn in C; [|discriminate].
      injection C as <-. cbn. split; [|exact N].
      rewrite W. symmetry. apply take_app_le. lia.
    + rewrite Z.gtb_ltb in G. apply Z.ltb_ge in G. rewrite N in G.
      injection C as <-. cbn. split; [|exact N].
      rewrite W. rewrite !take_ge; [reflexivity| |]; [rewrite length_app; cbn|]; lia.
Qed.

(** X1.  Whatever the prices, the window of a tracker of size [k] is the
    list of the first [k] prices it was given, in the order given: the
    window never holds more than [k] prices and, once full, never changes. *)
Theorem tracker_window_first_prices (k : Z) (obs : list (Z * float64)) (tr : t) :
  feed (init k) obs = Ok tr ->
  price_window tr = take (Z.to_nat k) (prices obs) /\
  (Z.of_nat (length (price_window tr)) <= Z.max 0 k)%Z /\
  (forall more tr', feed tr more = Ok tr' ->
                    (k <= Z.of_nat (length obs))%Z ->
                    price_window tr' = price_window tr).
Proof.
  intros H. destruct (feed_window k obs tr H) as [W N].
  split; [exact W|]. split.
  - rewrite W, length_take. lia.
  - intros more tr' F Hk.
    assert (F' : feed (init k) (obs ++ more) = Ok tr').
    { rewrite feed_app, H. exact F. }
    destruct (feed_window k _ tr' F') as [W' _].
    rewrite W', W. unfold prices. rewrite map_app.
    apply take_app_le. rewrite length_map. lia.
Qed.

Lemma tracker_window_first_prices_witness :
  exists tr,
    feed (init 2) [(1, Fin 5); (2, NaN); (3, Fin 7); (4, Fin 8)]%Z = Ok tr /\
    price_window tr = [Fin 5; NaN] /\
    (Z.of_nat (length (price_window tr)) <= 2)%Z.
Proof.
  destruct (feed (init 2) [(1, Fin 5); (2, NaN); (3, Fin 7); (4, Fin 8)]%Z)
    as [tr|e] eqn:F; [|vm_compute in F; discriminate F].
  exists tr. split; [reflexivity|].
  destruct (tracker_window_first_prices 2 _ tr F) as (W & B & _).
  split; [exact W|exact B].
Defined.

Lemma feed_total (obs : list (Z * float64)) :
  forall tr : t, (1 <= n tr)%Z -> exists tr', feed tr obs = Ok tr'.
Proof.
  induction obs as [|[d p] obs IH]; intros tr Hn; cbn [feed].
  - eexists. reflexivity.
  - destruct (tracker_call_total tr d p Hn) as (tr1 & -> & E). cbn.
    apply IH. lia.
Qed.

(** X2.  The division by zero of a tracker: the first update of a tracker
    of size [k <= 0] divides by the length of an empty window and raises
    it, and a tracker of size [k >= 1] never raises it, whatever the
    prices, NaN included: the window it averages is never empty and the
    previous price is tested before it divides. *)
Theorem tracker_raises_iff_size_not_positive :
  (forall (k d : Z) (p : float64),
      call (init k) d p = Err ZeroDivisionError <-> (k <= 0)%Z) /\
  (forall (k : Z) (obs : list (Z * float64)),
      (k <= 0)%Z -> obs <> [] -> feed (init k) obs = Err ZeroDivisionError) /\
  (forall (k : Z) (obs : list (Z * float64)),
      (1 <= k)%Z -> feed (init k) obs <> Err ZeroDivisionError).
Proof.
  assert (A : forall (k d : Z) (p : float64),
             (k <= 0)%Z -> call (init k) d p = Err ZeroDivisionError).
  { intros k d p Hk. unfold call. cbn [price_window init app length n].
    replace (_ >? _)%Z with true by (symmetry; apply Z.gtb_lt; lia).
    reflexivity. }
  split; [|split].
  - intros k d p. split; [|apply A].
    intros H. destruct (Z_le_gt_dec k 0) as [L|G]; [exact L|].
    destruct (tracker_call_total (init k) d p) as (tr & E & _); [cbn; lia|].
    rewrite E in H. discriminate H.
  - intros k [|[d p] obs] Hk Hne; [congruence|].
    cbn [feed]. rewrite A by exact Hk. reflexivity.
  - intros k obs Hk. destruct (feed_total obs (init k) Hk) as [tr ->].
    discriminate.
Qed.

Lemma tracker_raises_iff_size_not_positive_witness :
  feed (init 0) [(1%Z, Fin 10)] = Err ZeroDivisionError /\
  feed (init 1) [(1, Fin 10); (2, NaN)]%Z <> Err ZeroDivisionError.
Proof.
  destruct tracker_raises_iff_size_not_positive as (_ & H2 & H3).
  split.
  - apply H2; [lia|discriminate].
  - apply H3. lia.
Defined.

End TrackerRuns.

(** ** The statistics of a window *)

Section Statistics.

Import Tracker.

Lemma fsum_fin (qs : list Q) :
  forall acc : Q,
    fold_left fadd (map Fin qs) (Fin acc) = Fin (fold_left Qplus qs acc).
Proof.
  induction qs as [|q qs IH]; intros acc; cbn; [reflexivity|apply IH].
Qed.

Lemma existsb_isnan_fin (qs : list Q) : existsb isnan (map Fin qs) = false.
Proof. induction qs as [|q qs IH]; cbn; [reflexivity|exact IH]. Qed.

Lemma fold_left_Qplus_acc (qs : list Q) :
  forall acc : Q, fold_left Qplus qs acc == acc + fold_left Qplus qs 0.
Proof.
  induction qs as [|q qs IH]; intros acc; cbn.
  - ring.
  - rewrite (IH (acc + q)), (IH (0 + q)). ring.
Qed.

Lemma Qsum_sq_dev_nonneg (m : Q) (qs : list Q) : 0 <= Qsum (sq_dev m qs).
Proof.
  unfold Qsum, sq_dev. induction qs as [|q qs IH]; cbn.
  - apply Qle_refl.
  - rewrite fold_left_Qplus_acc.
    set (rest := fold_left Qplus _ 0) in *.
    set (x := q - m).
    assert (0 <= x * x) by nra. lra.
Qed.

Lemma mean_of_fin (qs : list Q) :
  qs <> [] ->
  mean_of (map Fin qs)
  = Ok (Fin (Qsum qs / inject_Z (Z.of_nat (length qs)))).
Proof.
  destruct qs as [|q qs]; [congruence|]. intros _.
  unfold mean_of. cbn [map]. unfold fsum. rewrite <- (map_cons Fin).
  rewrite fsum_fin, length_map. reflexivity.
Qed.

Lemma length_inject_pos (qs : list Q) :
  qs <> [] -> 0 < inject_Z (Z.of_nat (length qs)).
Proof.
  destruct qs as [|q qs]; [congruence|]. intros _.
  change 0 with (inject_Z 0). rewrite <- Zlt_Qlt. cbn [length]. lia.
Qed.

Lemma stats_nan (w : list float64) : In NaN w -> stats w = Ok (NaN, NaN).
Proof.
  intros H. unfold stats.
  replace (existsb isnan w) with true; [reflexivity|].
  symmetry. apply existsb_exists. exists NaN. split; [exact H|reflexivity].
Qed.

Lemma stats_fin (qs : list Q) :
  qs <> [] ->
  exists m v,
    stats (map Fin qs) = Ok (Fin m, Fin v) /\
    m * inject_Z (Z.of_nat (length qs)) == Qsum qs /\
    v * inject_Z (Z.of_nat (length qs)) == Qsum (sq_dev m qs) /\
    0 <= v.
Proof.
  intros Hne. unfold stats. rewrite existsb_isnan_fin.
  rewrite (mean_of_fin qs Hne). cbn [mbind result_bind].
  set (m := Qsum qs / inject_Z (Z.of_nat (length qs))).
  rewrite map_map. cbn [fsub fmul lift2].
  change (map (fun x : Q => Fin ((x - m) * (x - m))) qs)
    with (map (fun x : Q => Fin ((fun q => (q - m) * (q - m)) x)) qs).
  rewrite <- (map_map (fun q => (q - m) * (q - m)) Fin).
  fold (sq_dev m qs).
  assert (Hne' : sq_dev m qs <> []).
  { unfold sq_dev. destruct qs; [congruence|discriminate]. }
  rewrite (mean_of_fin _ Hne'). cbn [mbind result_bind].
  assert (Hl : length (sq_dev m qs) = length qs) by apply length_map.
  rewrite Hl.
  pose proof (length_inject_pos qs Hne) as Hpos.
  eexists _, _. split; [reflexivity|].
  assert (Hnz : ~ inject_Z (Z.of_nat (length qs)) == 0).
  { intros E. rewrite E in Hpos. exact (Qlt_irrefl 0 Hpos). }
  split; [unfold m; field; exact Hnz|].
  split; [field; exact Hnz|].
  apply Qle_shift_div_l; [exact Hpos|].
  rewrite Qmult_0_l. apply Qsum_sq_dev_nonneg.
Qed.

(** X3.  The statistics of a window: a NaN anywhere makes mean and variance
    NaN; a window of numbers has the arithmetic mean and the population
    variance (the sum of squared deviations over the length, not over the
    length less one), which is never negative; an empty window raises. *)
Theorem statistics_of_window :
  (forall w : list float64, In NaN w -> stats w = Ok (NaN, NaN)) /\
  (forall qs : list Q,
      qs <> [] ->
      exists m v,
        stats (map Fin qs) = Ok (Fin m, Fin v) /\
        m * inject_Z (Z.of_nat (length qs)) == Qsum qs /\
        v * inject_Z (Z.of_nat (length qs)) == Qsum (sq_dev m qs) /\
        0 <= v) /\
  stats [] = Err ZeroDivisionError.
Proof.
  split; [exact stats_nan|]. split; [exact stats_fin|reflexivity].
Qed.

Lemma statistics_of_window_witness :
  stats [Fin 1; NaN; Fin 3] = Ok (NaN, NaN) /\
  exists m v,
    stats (map Fin [1; 2; 6]) = Ok (Fin m, Fin v) /\
    m * inject_Z 3 == Qsum [1; 2; 6] /\ 0 <= v.
Proof.
  destruct statistics_of_window as (H1 & H2 & _).
  split.
  - apply H1. cbn. tauto.
  - destruct (H2 [1; 2; 6]) as (m & v & E & Hm & _ & Hv); [discriminate|].
    exists m, v. split; [exact E|]. split; [exact Hm|exact Hv].
Defined.

(** X4.  Once a tracker of size [k] has been given more than [k] prices,
    its mean and variance are those of the first [k] prices and stay so;
    its previous price and date are the latest ones given.  The day return
    of the first such update is 0, whatever the prices: it is taken against
    the initial previous price 0.0.  From the next update on it is the one
    between the two latest prices. *)
Theorem tracker_after_window_full
    (k : Z) (obs : list (Z * float64)) (d : Z) (p : float64) (tr : t) :
  (k <= Z.of_nat (length obs))%Z ->
  feed (init k) (obs ++ [(d, p)]) = Ok tr ->
  stats (take (Z.to_nat k) (prices obs)) = Ok (moving_average tr, std tr) /\
  prev_price tr = p /\ prev_date tr = Some d /\
  (Z.of_nat (length obs) = k -> day_return tr = Fin 0) /\
  (forall q, (k < Z.of_nat (length obs))%Z -> last (prices obs) = Some q ->
             day_return tr = return_of q p).
Proof.
  intros Hk F. apply feed_snoc_inv in F. destruct F as (tr0 & F & C).
  destruct (feed_window k obs tr0 F) as [W N].
  assert (Hlen : length (price_window tr0)
                 = Nat.min (Z.to_nat k) (length (prices obs))).
  { rewrite W. apply length_take. }
  unfold prices in Hlen. rewrite length_map in Hlen.
  unfold call in C. rewrite length_app in C. cbn [length] in C.
  replace (_ >? _)%Z with true in C by (symmetry; apply Z.gtb_lt; lia).
  rewrite pop_snoc in C. rewrite <- W.
  destruct (stats (price_window tr0)) as [[m sd]|e]; cbn in C; [|discriminate].
  injection C as <-. cbn.
  split; [reflexivity|]. split; [reflexivity|]. split; [reflexivity|]. split.
  - intros E.
    assert (F0 : feed (init k) obs = Ok (warming k (prices obs))).
    { apply (feed_warming k obs []). cbn. lia. }
    rewrite F0 in F. injection F as <-. reflexivity.
  - intros q Hlt Hq.
    destruct obs as [|x obs0 _] using rev_ind; [discriminate|].
    destruct x as [d0 p0]. apply feed_snoc_inv in F.
    destruct F as (tr1 & F1 & C1).
    destruct (feed_window k obs0 tr1 F1) as [W1 N1].
    unfold prices in Hq. rewrite map_app in Hq. cbn [map snd] in Hq.
    rewrite last_snoc in Hq. injection Hq as <-.
    rewrite length_app in Hlt. cbn [length] in Hlt.
    unfold call in C1. rewrite length_app in C1. cbn [length] in C1.
    assert (Hl1 : length (price_window tr1)
                  = Nat.min (Z.to_nat k) (length obs0)).
    { rewrite W1. unfold prices. rewrite length_take, length_map. reflexivity. }
    replace (_ >? _)%Z with true in C1 by (symmetry; apply Z.gtb_lt; lia).
    destruct (stats _) as [[m1 sd1]|e]; cbn in C1; [|discriminate].
    injection C1 as <-. reflexivity.
Qed.

Lemma tracker_after_window_full_witness :
  exists tr,
    feed (init 2) ([(1, Fin 4); (2, Fin 6)] ++ [(3, Fin 9)])%Z = Ok tr /\
    stats [Fin 4; Fin 6] = Ok (moving_average tr, std tr) /\
    prev_price tr = Fin 9 /\ day_return tr = Fin 0.
Proof.
  destruct (feed (init 2) ([(1, Fin 4); (2, Fin 6)] ++ [(3, Fin 9)])%Z)
    as [tr|e] eqn:F; [|vm_compute in F; discriminate F].
  exists tr. split; [reflexivity|].
  destruct (tracker_after_window_full 2 [(1, Fin 4); (2, Fin 6)]%Z 3 (Fin 9) tr)
    as (S1 & P1 & _ & R1 & _); [cbn; lia|exact F|].
  split; [exact S1|]. split; [exact P1|apply R1; reflexivity].
Defined.

End Statistics.

(** ** The signal and the strategy on any row *)

Section SignalFacts.

Import StdDevPairSignal.

(** What a call of the signal that returns can have done. *)
Lemma signal_call_inv (sg sg' : t) (index : Z) (r : row) (a : string) (v : Q) :
  call sg index r = Ok (sg', (a, v)) ->
  a = asset_a sg /\
  ((sg' = sg /\ v = 0) \/
   (exists b pa tr,
       r !! asset_b sg = Some (Fin b) /\ r !! asset_a sg = Some (Fin pa) /\
       isnan (Tracker.std (tracker sg)) = false /\
       Tracker.call (tracker sg) index (Fin b) = Ok tr /\
       sg' = with_tracker sg tr /\ v = decide_signal sg tr)).
Proof.
  unfold call, getitem.
  destruct (r !! asset_b sg) as [[b|]|] eqn:Eb; cbn; [| |discriminate].
  - destruct (r !! asset_a sg) as [[pa|]|] eqn:Ea; cbn; [| |discriminate].
    + destruct (isnan (Tracker.std (tracker sg))) eqn:Es; cbn.
      * intros H. injection H as <- <- <-. split; [reflexivity|]. left. tauto.
      * destruct (Tracker.call _ _ _) as [tr|e] eqn:C; cbn; [|discriminate].
        intros H. injection H as <- <- <-. split; [reflexivity|]. right.
        exists b, pa, tr. tauto.
    + intros H. injection H as <- <- <-. split; [reflexivity|]. left. tauto.
  - intros H. injection H as <- <- <-. split; [reflexivity|]. left. tauto.
Qed.

Lemma decide_signal_range (sg : t) (tr : Tracker.t) :
  decide_signal sg tr = 0 \/ decide_signal sg tr = 1 \/ decide_signal sg tr = -1.
Proof.
  unfold decide_signal.
  destruct (fltb (Tracker.day_return tr) _); [tauto|].
  destruct (fltb _ (Tracker.day_return tr)); tauto.
Qed.

(** X5.  Whenever the signal returns, the asset it names is asset a and the
    signal is one of 0, 1 and -1; the assets, thresholds and window size of
    the signal object are left as they were.  A row in which the price of
    asset b is NaN, or that of asset a is, gives the signal 0 and leaves the
    tracker untouched; a row without the column of asset b raises the key
    error of that column. *)
Theorem signal_output (sg : t) (index : Z) (r : row) :
  (forall sg' a v,
      call sg index r = Ok (sg', (a, v)) ->
      a = asset_a sg /\ (v = 0 \/ v = 1 \/ v = -1) /\
      asset_a sg' = asset_a sg /\ asset_b sg' = asset_b sg /\
      std_rise sg' = std_rise sg /\ std_drop sg' = std_drop sg /\
      n_days sg' = n_days sg) /\
  (r !! asset_b sg = Some NaN \/
   (is_Some (r !! asset_b sg) /\ r !! asset_a sg = Some NaN) ->
   call sg index r = Ok (sg, (asset_a sg, 0))) /\
  (r !! asset_b sg = None ->
   call sg index r = Err (ColumnKeyError (asset_b sg))).
Proof.
  split; [|split].
  - intros sg' a v H. apply signal_call_inv in H.
    destruct H as [-> [[-> ->] | (b & pa & tr & _ & _ & _ & _ & -> & ->)]].
    + repeat split; tauto.
    + split; [reflexivity|]. split; [apply decide_signal_range|].
      repeat split.
  - unfold call, getitem. intros [Eb|[[b Eb] Ea]]; rewrite Eb; cbn.
    + reflexivity.
    + destruct b as [b|]; cbn; [rewrite Ea|]; reflexivity.
  - intros Eb. unfold call, getitem. rewrite Eb. reflexivity.
Qed.

Lemma signal_output_witness :
  call (init (example_kwargs 2)) 1 (row2 NaN (Fin 3))
  = Ok (init (example_kwargs 2), ("A Price"%string, 0)) /\
  call (init (example_kwargs 2)) 1 {[ "A Price"%string := Fin 3 ]}
  = Err (ColumnKeyError "B Price").
Proof.
  destruct (signal_output (init (example_kwargs 2)) 1 (row2 NaN (Fin 3)))
    as (_ & H2 & _).
  destruct (signal_output (init (example_kwargs 2)) 1
              ({[ "A Price"%string := Fin 3 ]} : row)) as (_ & _ & H3).
  split.
  - apply H2. right. split; [eexists|]; reflexivity.
  - apply H3. reflexivity.
Defined.

(** X7.  With a variance that is not negative and thresholds that are not
    negative, the rise test and the drop test exclude each other: the
    signal is 1 exactly when the day return exceeds the variance times the
    rise threshold, -1 exactly when it is below minus the variance times
    the drop threshold, and 0 in between.  Without the sign conditions the
    drop test, made last, decides. *)
Theorem signal_thresholds (sg : t) (tr : Tracker.t) (sd dr : Q) :
  Tracker.std tr = Fin sd ->
  Tracker.day_return tr = Fin dr ->
  (dr < - sd * std_drop sg -> decide_signal sg tr = -1) /\
  (0 <= sd -> 0 <= std_rise sg -> 0 <= std_drop sg ->
   (decide_signal sg tr = 1 <-> sd * std_rise sg < dr) /\
   (decide_signal sg tr = -1 <-> dr < - sd * std_drop sg) /\
   (decide_signal sg tr = 0 <->
    - sd * std_drop sg <= dr /\ dr <= sd * std_rise sg)).
Proof.
  intros Es Er. unfold decide_signal. rewrite Es, Er. cbn [fmul fneg lift2 fltb].
  destruct (Qltb dr (- sd * std_drop sg)) eqn:D;
    destruct (Qltb (sd * std_rise sg) dr) eqn:R.
  all: try (apply Qltb_lt in D).
  all: try (apply Qltb_lt in R).
  all: try (assert (D' : ~ dr < - sd * std_drop sg)
              by (intros X; apply Qltb_lt in X; congruence)).
  all: try (assert (R' : ~ sd * std_rise sg < dr)
              by (intros X; apply Qltb_lt in X; congruence)).
  all: split; [intros; try reflexivity; tauto|].
  all: intros H0 H1 H2.
  all: assert (0 <= sd * std_rise sg) by nra.
  all: assert (0 <= sd * std_drop sg) by nra.
  all: repeat split; intros; try reflexivity; try discriminate; try lra.
Qed.

Lemma signal_thresholds_witness :
  let sg := init (example_kwargs 2) in
  let tr := Tracker.mk (Some 3%Z) (Fin 9) (Fin 1) 2 [Fin 4; Fin 6] (Fin 5) (Fin 1) in
  1 * std_rise sg < 1 /\ decide_signal sg tr = 1.
Proof.
  cbv zeta.
  destruct (signal_thresholds (init (example_kwargs 2))
              (Tracker.mk (Some 3%Z) (Fin 9) (Fin 1) 2 [Fin 4; Fin 6] (Fin 5) (Fin 1))
              1 1 eq_refl eq_refl) as [_ H].
  destruct H as (H1 & _ & _).
  - unfold Qle; simpl; lia.
  - unfold Qle; simpl; lia.
  - unfold Qle; simpl; lia.
  - assert (L : 1 * std_rise (init (example_kwargs 2)) < 1) by reflexivity.
    split; [exact L|apply H1; exact L].
Defined.

End SignalFacts.

(** ** No NaN reaches the tracker of the signal *)

Section SignalInvariant.

Import StdDevPairSignal.

Lemma finite_window_values (w : list float64) :
  Forall (fun x => isnan x = false) w -> exists qs, w = map Fin qs.
Proof.
  induction 1 as [|x w Hx _ [qs ->]]; [exists []; reflexivity|].
  destruct x as [q|]; [|discriminate]. exists (q :: qs). reflexivity.
Qed.

Lemma return_of_finite (prev price : float64) :
  isnan prev = false -> isnan price = false ->
  isnan (Tracker.return_of prev price) = false.
Proof.
  destruct prev as [a|], price as [b|]; try discriminate. intros _ _.
  unfold Tracker.return_of. destruct (feqb _ _); reflexivity.
Qed.

Lemma tracker_call_finite (tr tr' : Tracker.t) (d : Z) (b : Q) :
  finite_tracker tr ->
  Tracker.call tr d (Fin b) = Ok tr' ->
  finite_tracker tr'.
Proof.
  intros (Hw & Hm & Hs & Hp & Hr). unfold Tracker.call.
  destruct (_ >? _)%Z.
  - rewrite pop_snoc.
    destruct (finite_window_values _ Hw) as [qs Eq]. rewrite Eq in Hw |- *.
    destruct qs as [|q qs]; [discriminate|].
    destruct (stats_fin (q :: qs)) as (m & v & -> & _ & _ & Hv); [discriminate|].
    cbn [mbind result_bind]. intros H. injection H as <-.
    unfold finite_tracker. cbn [Tracker.price_window Tracker.moving_average
      Tracker.std Tracker.prev_price Tracker.day_return].
    split; [exact Hw|]. split; [reflexivity|].
    split; [exists v; split; [reflexivity|exact Hv]|].
    split; [reflexivity|]. apply return_of_finite; [exact Hp|reflexivity].
  - intros H. injection H as <-. unfold finite_tracker. cbn.
    split; [|tauto]. apply Forall_app. split; [exact Hw|].
    constructor; [reflexivity|constructor].
Qed.

Lemma signal_call_finite (sg sg' : t) (index : Z) (r : row) (out : string * Q) :
  finite_tracker (tracker sg) ->
  call sg index r = Ok (sg', out) ->
  finite_tracker (tracker sg').
Proof.
  intros Hf H. destruct out as [a v]. apply signal_call_inv in H.
  destruct H as [_ [[-> _]|(b & pa & tr & _ & _ & _ & C & -> & _)]]; [exact Hf|].
  cbn. eapply tracker_call_finite; eassumption.
Qed.

(** X6.  On a table whose prices are finite numbers or NaN, in exact
    arithmetic, the signal never hands a NaN to its tracker: after any run
    of the signal over the table, from its initial state, the window holds
    numbers only, mean, previous price and day return are numbers and the
    variance is a number that is not negative, so the test for a NaN
    variance in the signal does not hold.  (An infinite price is not a
    value of [float64]; this statement says nothing of it.) *)
Theorem signal_tracker_finite (kw : kwargs) (rows : list (Z * row))
    (sg : t) (outs : list (string * Q)) :
  trace call (init kw) rows = Ok (sg, outs) ->
  finite_tracker (tracker sg) /\
  isnan (Tracker.std (tracker sg)) = false /\
  length outs = length rows.
Proof.
  assert (G : forall rows sg0 sg outs,
             finite_tracker (tracker sg0) ->
             trace call sg0 rows = Ok (sg, outs) ->
             finite_tracker (tracker sg) /\ length outs = length rows).
  { clear. induction rows as [|[i r] rows IH]; intros sg0 sg outs Hf H;
      cbn [trace] in H.
    - injection H as <- <-. split; [exact Hf|reflexivity].
    - destruct (call sg0 i r) as [[sg1 o]|e] eqn:C; cbn in H; [|discriminate].
      destruct (trace call sg1 rows) as [[sg2 os]|e] eqn:T; cbn in H; [|discriminate].
      injection H as <- <-.
      destruct (IH sg1 sg2 os) as [Hf2 Hl]; [|exact T|].
      + eapply signal_call_finite; eassumption.
      + split; [exact Hf2|]. cbn [length]. rewrite Hl. reflexivity. }
  intros H. destruct (G rows (init kw) sg outs) as [Hf Hl]; [|exact H|].
  - unfold finite_tracker. cbn. split; [constructor|]. split; [reflexivity|].
    split; [exists 0; split; [reflexivity|apply Qle_refl]|]. split; reflexivity.
  - split; [exact Hf|]. split; [|exact Hl].
    destruct Hf as (_ & _ & (v & -> & _) & _). reflexivity.
Qed.

Lemma signal_tracker_finite_witness :
  exists sg outs,
    trace call (init (example_kwargs 1))
      [(1, row2 (Fin 10) (Fin 10)); (2, row2 NaN (Fin 9)); (3, row2 (Fin 9) NaN);
       (4, row2 (Fin 9) (Fin 12)); (5, row2 (Fin 9) (Fin 15))]%Z
    = Ok (sg, outs) /\
    finite_tracker (tracker sg) /\ length outs = 5%nat.
Proof.
  destruct (trace call (init (example_kwargs 1))
      [(1, row2 (Fin 10) (Fin 10)); (2, row2 NaN (Fin 9)); (3, row2 (Fin 9) NaN);
       (4, row2 (Fin 9) (Fin 12)); (5, row2 (Fin 9) (Fin 15))]%Z)
    as [[sg outs]|e] eqn:T; [|vm_compute in T; discriminate T].
  exists sg, outs. split; [reflexivity|].
  destruct (signal_tracker_finite _ _ _ _ T) as (Hf & _ & Hl).
  split; [exact Hf|exact Hl].
Defined.

End SignalInvariant.

(** ** The orders of the pair strategy *)

Section StrategyFacts.

Import FuturesStdPairStrategy.

(** X8.  Whenever the pair strategy returns, the asset is asset a of its
    signal and the order is [close], a purchase of the configured long size
    or a sale of the configured short size, according to the signal 0, 1 or
    -1; the sizes of the strategy object do not change.  The strategy
    raises exactly when its signal does. *)
Theorem strategy_orders (s : t) (index : Z) (r : row) :
  (forall s' a o,
      call s index r = Ok (s', (a, o)) ->
      exists sg v,
        StdDevPairSignal.call (stdsignal s) index r = Ok (sg, (a, v)) /\
        s' = with_signal s sg /\
        a = StdDevPairSignal.asset_a (stdsignal s) /\
        ((v = 0 /\ o = Close) \/
         (v = 1 /\ o = Size (buy_size s * 1)) \/
         (v = -1 /\ o = Size (short_size s * -1)))) /\
  (forall e,
      call s index r = Err e <->
      StdDevPairSignal.call (stdsignal s) index r = Err e).
Proof.
  split.
  - intros s' a o. unfold call.
    destruct (StdDevPairSignal.call (stdsignal s) index r)
      as [[sg [a0 v]]|e] eqn:C; cbn; [|discriminate].
    intros H. exists sg, v.
    destruct (signal_call_inv _ _ _ _ _ _ C) as [Ea Hv].
    assert (R : v = 0 \/ v = 1 \/ v = -1).
    { destruct Hv as [[_ ->]|(b & pa & tr & _ & _ & _ & _ & _ & ->)];
        [tauto|apply decide_signal_range]. }
    destruct R as [-> | [-> | ->]]; cbn in H; injection H as <- <- <-;
      (split; [reflexivity|]); (split; [reflexivity|]);
      (split; [exact Ea|]); tauto.
  - intros e. unfold call.
    destruct (StdDevPairSignal.call (stdsignal s) index r)
      as [[sg [a0 v]]|e0]; cbn.
    + split; [|discriminate].
      repeat (destruct (Qeq_bool _ _)); discriminate.
    + split; intros H; f_equal; congruence.
Qed.

Lemma strategy_orders_witness :
  exists s' sg v,
    call (init (example_kwargs 2)) 1 (row2 (Fin 10) (Fin 10))
    = Ok (s', ("A Price"%string, Close)) /\
    StdDevPairSignal.call (stdsignal (init (example_kwargs 2))) 1
      (row2 (Fin 10) (Fin 10)) = Ok (sg, ("A Price"%string, v)) /\
    s' = with_signal (init (example_kwargs 2)) sg.
Proof.
  destruct (call (init (example_kwargs 2)) 1 (row2 (Fin 10) (Fin 10)))
    as [[s' [a o]]|e] eqn:C; [|vm_compute in C; discriminate C].
  destruct (strategy_orders (init (example_kwargs 2)) 1 (row2 (Fin 10) (Fin 10)))
    as [H _].
  destruct (H s' a o C) as (sg & v & Hc & Hs & _).
  assert (Ea : a = "A Price"%string) by (vm_compute in C; congruence).
  assert (Eo : o = Close) by (vm_compute in C; congruence).
  subst a o. exists s', sg, v. split; [reflexivity|]. split; [exact Hc|exact Hs].
Defined.

End StrategyFacts.

(** ** The ledger under orders *)

Section LedgerFacts.

Import Backtest.

(** X9.  What an order does to the total value [position_value + cash] of
    the revalued ledger: [close] lowers it by the cost; an executed
    purchase ([0 <= s]) raises it by the cost; an executed order of any
    sign changes it by [C - (|s| - s) * p]; an order that the cash does not
    cover leaves it alone. *)
Theorem order_changes_total_value (bt : t) (p : Q) :
  let m := mark_to_market bt p in
  (let bt1 := settle bt Close p in
   position_value bt1 + cash bt1 == position_value m + cash m - t_cost bt) /\
  (forall s : Q,
      let bt1 := settle bt (Size s) p in
      (executes bt (Size s) (Fin p) = true ->
       position_value bt1 + cash bt1
       == position_value m + cash m + t_cost bt - (Qabs s - s) * p /\
       (0 <= s ->
        position_value bt1 + cash bt1 == position_value m + cash m + t_cost bt)) /\
      (executes bt (Size s) (Fin p) = false -> bt1 = m)).
Proof.
  cbv zeta. split.
  - unfold settle. cbn. ring.
  - intros s. unfold settle, apply_order. cbn [executes mark_to_market cash t_cost].
    split; intros ->.
    + cbn. split; [ring|]. intros Hs. rewrite (Qabs_pos s Hs). ring.
    + reflexivity.
Qed.

Lemma order_changes_total_value_witness :
  let bt := start 1000 (example_kwargs 2) in
  executes bt (Size 10) (Fin 9) = true /\
  position_value (settle bt (Size 10) 9) + cash (settle bt (Size 10) 9)
  == position_value (mark_to_market bt 9) + cash (mark_to_market bt 9) + (1 # 10).
Proof.
  cbv zeta.
  destruct (order_changes_total_value (start 1000 (example_kwargs 2)) 9) as [_ H].
  destruct (H 10) as [H1 _].
  split; [reflexivity|].
  destruct (H1 eq_refl) as [_ H2]. apply H2. unfold Qle; simpl; lia.
Defined.

(** X10.  The order step on a numeric order does one of two things.
    Either the cash does not cover the order ([cash < |s|*p + C]) and the
    revalued ledger is left exactly as it is; or the cash covers it and
    the order is executed: cash falls by [|s|*p - C], position size grows
    by [s], position value by [s*p], and the cash left is at least twice
    the transaction cost, so an executed order never overdraws the cash. *)
Theorem executed_order_keeps_cash (bt : t) (s p : Q) :
  let m := mark_to_market bt p in
  let bt1 := settle bt (Size s) p in
  (cash bt < Qabs s * p + t_cost bt /\ bt1 = m) \/
  (Qabs s * p + t_cost bt <= cash bt /\
   cash bt1 = cash bt - (Qabs s * p - t_cost bt) /\
   position_size bt1 = position_size bt + s /\
   position_value bt1 = position_value m + s * p /\
   2 * t_cost bt <= cash bt1).
Proof.
  cbv zeta. unfold settle, apply_order. cbn [mark_to_market cash t_cost].
  destruct (Qle_bool (Qabs s * p + t_cost bt) (cash bt)) eqn:B.
  - right. apply Qle_bool_iff in B. cbn.
    split; [exact B|]. split; [reflexivity|]. split; [reflexivity|].
    split; [reflexivity|]. lra.
  - left. split; [|reflexivity].
    apply Qnot_le_lt. intros H. apply Qle_bool_iff in H. congruence.
Qed.

Lemma executed_order_keeps_cash_witness :
  let bt := start 1000 (example_kwargs 2) in
  Qabs (-10) * 9 + t_cost bt <= cash bt /\
  position_size (settle bt (Size (-10)) 9) = 0 + -10 /\
  2 * t_cost bt <= cash (settle bt (Size (-10)) 9).
Proof.
  cbv zeta.
  destruct (executed_order_keeps_cash (start 1000 (example_kwargs 2)) (-10) 9)
    as [[H _]|(Hc & _ & Hs & _ & Hf)].
  - exfalso. revert H. unfold Qlt; simpl; lia.
  - split; [exact Hc|]. split; [exact Hs|exact Hf].
Defined.

(** X15.  Revaluation touches the position value only: cash and position
    size stay and the previous price becomes the day's price.  The position
    value itself stays when there is no previous price, when the previous
    price is 0 or equal to the day's price, and when position value or
    position size is 0; otherwise it is multiplied by
    [1 + (p / prev - 1) * position_size]. *)
Theorem revaluation (bt : t) (p : Q) :
  let m := mark_to_market bt p in
  cash m = cash bt /\ position_size m = position_size bt /\
  prev_price m = Fin p /\
  (prev_price bt = NaN \/
   (exists q, prev_price bt = Fin q /\ (q == 0 \/ q == p)) \/
   position_value bt == 0 \/ position_size bt == 0 ->
   position_value m == position_value bt) /\
  (forall q, prev_price bt = Fin q -> ~ q == 0 ->
             position_value m
             == position_value bt * (1 + (p / q - 1) * position_size bt)).
Proof.
  cbv zeta. unfold mark_to_market, day_return. cbn.
  split; [reflexivity|]. split; [reflexivity|]. split; [reflexivity|]. split.
  - intros [E|[(q & E & Hq)|[E|E]]].
    + rewrite E. ring.
    + rewrite E. destruct (Qeq_bool q 0) eqn:B; [ring|].
      apply Qeq_bool_neq in B. destruct Hq as [Hq|Hq]; [contradiction|].
      rewrite <- Hq. field. exact B.
    + rewrite E. ring.
    + rewrite E. ring.
  - intros q E Hq. rewrite E.
    destruct (Qeq_bool q 0) eqn:B; [apply Qeq_bool_iff in B; contradiction|].
    ring.
Qed.

Lemma revaluation_witness :
  let bt := mark_to_market (settle (start 1000 (example_kwargs 2)) (Size 10) 9) 9 in
  position_value (mark_to_market bt 9) == position_value bt.
Proof.
  cbv zeta.
  destruct (revaluation
              (mark_to_market (settle (start 1000 (example_kwargs 2)) (Size 10) 9) 9) 9)
    as (_ & _ & _ & H & _).
  apply H. right. left. exists 9. split; [reflexivity|]. right. reflexivity.
Defined.

End LedgerFacts.

(** ** Whole runs of the constructor *)

Section RunFacts.

Import Backtest.

Lemma day_pnl_last (bt bt' : t) (o : order) (price : float64) :
  day bt o price = Ok bt' ->
  pnl bt' = pnl bt ++ [position_value bt' + cash bt'].
Proof.
  destruct price as [p|]; cbn [day]; intros H.
  - apply record_inv in H. cbv zeta in H.
    destruct H as ((Ec & Ev & _) & _ & _ & _ & _ & _ & Hp & _).
    destruct (settle_fixed bt o p) as (_ & _ & _ & Ep & _).
    rewrite Hp, Ep, Ec, Ev. reflexivity.
  - injection H as <-. reflexivity.
Qed.

Lemma day_profit_below_maximum (bt bt' : t) (o : order) (p : Q) :
  day bt o (Fin p) = Ok bt' ->
  position_value bt' + cash bt' - initial_value bt' <= max_value bt'.
Proof.
  cbn [day]. intros H. apply record_inv in H. cbv zeta in H.
  destruct H as ((Ec & Ev & _) & _ & Ei & _ & Hm & _).
  rewrite Hm, Ec, Ev, Ei. apply Qmax_ge_r.
Qed.

Section AnyStrategy.

Context {S : Type} (call : S -> Z -> row -> result (S * (string * order))).

Lemma loop_cons_inv (i : Z) (r : row) (rows : list (Z * row))
    (s s' : S) (bt bt' : t) :
  loop call s bt ((i, r) :: rows) = Ok (s', bt') ->
  exists s1 asset o price bt1,
    call s i r = Ok (s1, (asset, o)) /\ getitem r asset = Ok price /\
    day bt o price = Ok bt1 /\ loop call s1 bt1 rows = Ok (s', bt').
Proof.
  cbn [loop].
  destruct (call s i r) as [[s1 [asset o]]|e] eqn:C; cbn; [|discriminate].
  destruct (getitem r asset) as [price|e] eqn:G; cbn; [|discriminate].
  destruct (day bt o price) as [bt1|e] eqn:D; cbn; [|discriminate].
  intros H. exists s1, asset, o, price, bt1.
  split; [reflexivity|]. split; [exact G|]. split; [exact D|exact H].
Qed.

Lemma loop_fixed (rows : list (Z * row)) :
  forall (s s' : S) (bt bt' : t),
    loop call s bt rows = Ok (s', bt') ->
    t_cost bt' = t_cost bt /\ initial_value bt' = initial_value bt /\
    max_value bt <= max_value bt'.
Proof.
  induction rows as [|[i r] rows IH]; intros s s' bt bt' H.
  - injection H as _ <-. split; [reflexivity|]. split; [reflexivity|apply Qle_refl].
  - apply loop_cons_inv in H.
    destruct H as (s1 & asset & o & price & bt1 & _ & _ & D & L).
    destruct (day_fixed _ _ _ _ D) as (Et & Ei & Hm).
    destruct (IH _ _ _ _ L) as (Et' & Ei' & Hm').
    split; [congruence|]. split; [congruence|].
    eapply Qle_trans; eassumption.
Qed.

Lemma loop_pnl_last (rows : list (Z * row)) :
  forall (s s' : S) (bt bt' : t),
    loop call s bt rows = Ok (s', bt') ->
    rows <> [] ->
    last (pnl bt') = Some (position_value bt' + cash bt').
Proof.
  induction rows as [|[i r] rows IH]; intros s s' bt bt' H Hne; [congruence|].
  apply loop_cons_inv in H.
  destruct H as (s1 & asset & o & price & bt1 & _ & _ & D & L).
  destruct rows as [|x rows].
  - injection L as _ <-. rewrite (day_pnl_last _ _ _ _ D). apply last_snoc.
  - eapply IH; [exact L|discriminate].
Qed.

Lemma loop_extends (rows : list (Z * row)) :
  forall (s s' : S) (bt bt' : t),
    loop call s bt rows = Ok (s', bt') ->
    exists vs ds,
      pnl bt' = pnl bt ++ vs /\ drawdown bt' = drawdown bt ++ ds /\
      length vs = length rows /\ length ds = length rows.
Proof.
  induction rows as [|[i r] rows IH]; intros s s' bt bt' H.
  - injection H as _ <-. exists [], []. rewrite !app_nil_r.
    repeat split; reflexivity.
  - apply loop_cons_inv in H.
    destruct H as (s1 & asset & o & price & bt1 & _ & _ & D & L).
    apply day_appends in D. destruct D as (v & d & Ep & Ed).
    destruct (IH _ _ _ _ L) as (vs & ds & Ep' & Ed' & Lv & Ld).
    exists (v :: vs), (d :: ds). rewrite Ep', Ed', Ep, Ed, <- !app_assoc.
    cbn. split; [reflexivity|]. split; [reflexivity|]. lia.
Qed.

End AnyStrategy.

Lemma init_inv (dataset : list (Z * row)) (strategy : string + Strategy)
    (cash0 : Q) (kw : kwargs) (bt : t) :
  init dataset strategy cash0 kw = Ok bt ->
  exists st s',
    resolve strategy kw = Ok st /\
    loop (strategy_call st) (strategy_self st) (start cash0 kw) dataset
    = Ok (s', bt).
Proof.
  unfold init. destruct (resolve strategy kw) as [st|e]; cbn; [|discriminate].
  destruct (loop _ _ _ _) as [[s' bt']|e] eqn:L; cbn; [|discriminate].
  intros H. injection H as <-. exists st, s'. split; [reflexivity|exact L].
Qed.

(** X11.  Over any run that completes, with any strategy, the transaction
    cost and the initial value of the ledger are those of the start, the
    running maximum never decreases and is never below the initial cash,
    and after a day with a price it is never below that day's profit
    [position_value + cash - initial_value]. *)
Theorem running_maximum :
  (forall (dataset : list (Z * row)) (strategy : string + Strategy)
          (cash0 : Q) (kw : kwargs) (bt : t),
      init dataset strategy cash0 kw = Ok bt ->
      t_cost bt = get (kw_C kw) (1 # 10) /\ initial_value bt = cash0 /\
      cash0 <= max_value bt) /\
  (forall (bt bt' : t) (o : order) (price : float64),
      day bt o price = Ok bt' ->
      max_value bt <= max_value bt' /\
      (isnan price = false ->
       position_value bt' + cash bt' - initial_value bt' <= max_value bt')).
Proof.
  split.
  - intros dataset strategy cash0 kw bt H. apply init_inv in H.
    destruct H as (st & s' & _ & L). apply loop_fixed in L. exact L.
  - intros bt bt' o price D. split; [eapply day_fixed; exact D|].
    destruct price as [p|]; [|discriminate]. intros _.
    eapply day_profit_below_maximum; exact D.
Qed.

Lemma running_maximum_witness :
  exists bt,
    init four_days (inl "future_pairs_strategy"%string) 1000 (example_kwargs 1)
    = Ok bt /\
    initial_value bt = 1000 /\ 1000 <= max_value bt.
Proof.
  destruct (init four_days (inl "future_pairs_strategy"%string) 1000 (example_kwargs 1))
    as [bt|e] eqn:E; [|vm_compute in E; discriminate E].
  exists bt. split; [reflexivity|].
  destruct running_maximum as [H _].
  destruct (H _ _ _ _ _ E) as (_ & Hi & Hm). split; [exact Hi|exact Hm].
Defined.

(** X12.  After any run that completes over a table that is not empty, the
    last entry of the PnL series is the total value of the final ledger,
    [position_value + cash], to the digit; the same holds after every
    single day, with or without a price. *)
Theorem last_pnl_is_total_value :
  (forall (dataset : list (Z * row)) (strategy : string + Strategy)
          (cash0 : Q) (kw : kwargs) (bt : t),
      init dataset strategy cash0 kw = Ok bt ->
      dataset <> [] ->
      last (pnl bt) = Some (position_value bt + cash bt)) /\
  (forall (bt bt' : t) (o : order) (price : float64),
      day bt o price = Ok bt' ->
      pnl bt' = pnl bt ++ [position_value bt' + cash bt']).
Proof.
  split.
  - intros dataset strategy cash0 kw bt H Hne. apply init_inv in H.
    destruct H as (st & s' & _ & L). eapply loop_pnl_last; eassumption.
  - apply day_pnl_last.
Qed.

Lemma last_pnl_is_total_value_witness :
  exists bt,
    init four_days (inl "future_pairs_strategy"%string) 1000 (example_kwargs 1)
    = Ok bt /\
    last (pnl bt) = Some (position_value bt + cash bt).
Proof.
  destruct (init four_days (inl "future_pairs_strategy"%string) 1000 (example_kwargs 1))
    as [bt|e] eqn:E; [|vm_compute in E; discriminate E].
  exists bt. split; [reflexivity|].
  destruct last_pnl_is_total_value as [H _].
  apply (H _ _ _ _ _ E). discriminate.
Defined.

(** X14.  The two series only grow at the end: if the constructor completes
    over a table, it completes over every prefix of it, and the series of
    the whole table are those of the prefix followed by one entry for each
    remaining day. *)
Theorem series_append_only (pre suf : list (Z * row)) (strategy : string + Strategy)
    (cash0 : Q) (kw : kwargs) (bt : t) :
  init (pre ++ suf) strategy cash0 kw = Ok bt ->
  exists bt1 vs ds,
    init pre strategy cash0 kw = Ok bt1 /\
    pnl bt = pnl bt1 ++ vs /\ drawdown bt = drawdown bt1 ++ ds /\
    length vs = length suf /\ length ds = length suf.
Proof.
  intros H. apply init_inv in H. destruct H as (st & s' & R & L).
  rewrite loop_app in L.
  destruct (loop (strategy_call st) (strategy_self st) (start cash0 kw) pre)
    as [[s1 bt1]|e] eqn:L1; cbn in L; [|discriminate].
  destruct (loop_extends _ _ _ _ _ _ L) as (vs & ds & Hv & Hd & Lv & Ld).
  exists bt1, vs, ds. unfold init. rewrite R. cbn. rewrite L1. cbn.
  split; [reflexivity|]. split; [exact Hv|]. split; [exact Hd|].
  split; [exact Lv|exact Ld].
Qed.

Lemma series_append_only_witness :
  exists bt bt1 vs,
    init (firstn 2 four_days ++ skipn 2 four_days)
      (inl "future_pairs_strategy"%string) 1000 (example_kwargs 1) = Ok bt /\
    init (firstn 2 four_days) (inl "future_pairs_strategy"%string) 1000
      (example_kwargs 1) = Ok bt1 /\
    pnl bt = pnl bt1 ++ vs /\ length vs = 2%nat.
Proof.
  destruct (init (firstn 2 four_days ++ skipn 2 four_days)
              (inl "future_pairs_strategy"%string) 1000 (example_kwargs 1))
    as [bt|e] eqn:E; [|vm_compute in E; discriminate E].
  destruct (series_append_only _ _ _ _ _ _ E) as (bt1 & vs & ds & E1 & Hv & _ & Lv & _).
  exists bt, bt1, vs. split; [reflexivity|]. split; [exact E1|].
  split; [exact Hv|exact Lv].
Defined.

End RunFacts.

(** ** Tables without prices and rows without columns *)

Section MissingData.

Import Backtest.

Variable kw : kwargs.

Lemma with_signal_id (s : FuturesStdPairStrategy.t) :
  FuturesStdPairStrategy.with_signal s (FuturesStdPairStrategy.stdsignal s) = s.
Proof. destruct s. reflexivity. Qed.

Lemma strategy_call_no_price (s : FuturesStdPairStrategy.t) (i : Z) (r : row) :
  strategy_for kw s ->
  no_price kw r ->
  FuturesStdPairStrategy.call s i r = Ok (s, (kw_asset_a kw, Close)).
Proof.
  intros (Ha & Hb & _) [Ea [b Eb]]. cbv zeta in Ha, Hb.
  unfold FuturesStdPairStrategy.call, StdDevPairSignal.call, getitem.
  rewrite Ha, Hb, Eb. cbn.
  destruct b as [b|]; cbn; [rewrite Ea; cbn|]; rewrite with_signal_id; reflexivity.
Qed.

Lemma loop_no_price (rows : list (Z * row)) :
  forall (s : FuturesStdPairStrategy.t) (bt : t),
    strategy_for kw s ->
    Forall (fun ir => no_price kw ir.2) rows ->
    exists bt',
      loop FuturesStdPairStrategy.call s bt rows = Ok (s, bt') /\
      same_position bt' bt /\ max_value bt' = max_value bt /\
      prev_price bt' = prev_price bt /\
      pnl bt' = pnl bt ++ replicate (length rows) (position_value bt + cash bt) /\
      drawdown bt' = drawdown bt ++ replicate (length rows) 0.
Proof.
  induction rows as [|[i r] rows IH]; intros s bt Hs Hr; cbn [loop length replicate].
  - exists bt. rewrite !app_nil_r. repeat split; reflexivity.
  - inversion Hr as [|? ? H1 Hrest]; subst. cbn [snd] in H1.
    rewrite (strategy_call_no_price s i r Hs H1). cbn.
    destruct H1 as [Ea _]. unfold getitem. rewrite Ea. cbn.
    destruct (IH s (skip bt) Hs Hrest) as (bt' & L & (Ec & Ev & Es) & Em & Ep & Hp & Hd).
    exists bt'. split; [exact L|]. cbn in *.
    split; [repeat split; assumption|]. split; [exact Em|]. split; [exact Ep|].
    rewrite Hp, Hd, <- !app_assoc. split; reflexivity.
Qed.

(** X13.  A table in which the traded asset never has a price leaves the
    ledger alone, whatever the window size and the initial cash: the run of
    the pair strategy completes, cash is the initial cash, position value
    and position size are 0, every PnL entry is the initial total value
    [0 + cash] and every drawdown entry is 0. *)
Theorem table_without_prices (rows : list (Z * row)) (name : string) (cash0 : Q) :
  recognized (lower name) = true ->
  Forall (fun ir => no_price kw ir.2) rows ->
  exists bt,
    init rows (inl name) cash0 kw = Ok bt /\
    cash bt = cash0 /\ position_value bt = 0 /\ position_size bt = 0 /\
    max_value bt = cash0 /\
    pnl bt = replicate (length rows) (0 + cash0) /\
    drawdown bt = replicate (length rows) 0.
Proof.
  intros Hn Hr. unfold init, resolve. rewrite Hn. cbn.
  destruct (loop_no_price rows (FuturesStdPairStrategy.init kw) (start cash0 kw))
    as (bt & L & (Ec & Ev & Es) & Em & _ & Hp & Hd);
    [apply strategy_for_init|exact Hr|].
  rewrite L. cbn. exists bt. cbn in *.
  split; [reflexivity|]. repeat split; assumption.
Qed.

(** X18.  A first row that lacks the column of asset b makes the run of
    the pair strategy fail with the key error of that column; a first row
    that has it but lacks the column of asset a fails with the key error of
    asset a, whether the price of asset b is a number or NaN. *)
Theorem row_without_column (r : row) (i : Z) (rest : list (Z * row))
    (name : string) (cash0 : Q) :
  recognized (lower name) = true ->
  (r !! kw_asset_b kw = None ->
   init ((i, r) :: rest) (inl name) cash0 kw
   = Err (ColumnKeyError (kw_asset_b kw))) /\
  (is_Some (r !! kw_asset_b kw) -> r !! kw_asset_a kw = None ->
   init ((i, r) :: rest) (inl name) cash0 kw
   = Err (ColumnKeyError (kw_asset_a kw))).
Proof.
  intros Hn. unfold init, resolve. rewrite Hn. cbn -[lookup].
  unfold FuturesStdPairStrategy.call, StdDevPairSignal.call, getitem.
  cbn -[lookup].
  split.
  - intros ->. reflexivity.
  - intros [b ->] Ea. cbn -[lookup].
    destruct b as [b|]; cbn -[lookup]; unfold getitem.
    + rewrite Ea. reflexivity.
    + change (Qeq_bool 0 1) with false. change (Qeq_bool 0 (-1)) with false.
      cbn -[lookup]. rewrite Ea. reflexivity.
Qed.

End MissingData.

Section MissingDataWitnesses.

Import Backtest.

Lemma table_without_prices_witness :
  exists bt,
    init [(1, row2 NaN (Fin 3)); (2, row2 NaN NaN)]%Z
      (inl "future_pairs_strategy"%string) 0 (example_kwargs 0) = Ok bt /\
    cash bt = 0 /\ drawdown bt = [0; 0].
Proof.
  destruct (table_without_prices (example_kwargs 0)
              [(1, row2 NaN (Fin 3)); (2, row2 NaN NaN)]%Z
              "future_pairs_strategy"%string 0)
    as (bt & E & Hc & _ & _ & _ & _ & Hd).
  - reflexivity.
  - repeat constructor; cbn; eexists; reflexivity.
  - exists bt. split; [exact E|]. split; [exact Hc|exact Hd].
Defined.

Lemma row_without_column_witness :
  init [(1%Z, ({[ "B Price"%string := Fin 3 ]} : row))]
    (inl "future_pairs_strategy"%string) 1000 (example_kwargs 2)
  = Err (ColumnKeyError "A Price").
Proof.
  destruct (row_without_column (example_kwargs 2)
              ({[ "B Price"%string := Fin 3 ]} : row) 1 []
              "future_pairs_strategy"%string 1000 eq_refl) as [_ H].
  apply H; [eexists|]; reflexivity.
Defined.

End MissingDataWitnesses.

(** ** Names *)

Section Names.

Import Backtest.

Lemma lower_ascii_idem (c : ascii) : lower_ascii (lower_ascii c) = lower_ascii c.
Proof. destruct c as [[] [] [] [] [] [] [] []]; reflexivity. Qed.

Lemma lower_idem (s : string) : lower (lower s) = lower s.
Proof.
  induction s as [|c s IH]; cbn [lower]; [reflexivity|].
  rewrite lower_ascii_idem, IH. reflexivity.
Qed.

(** X16.  The strategy name is matched without regard to case: lowering is
    idempotent and keeps the length, so a name is accepted exactly when its
    lowered form is, and the accepted names are those whose lowered form is
    one of the two spellings of the pair strategy; every accepted name
    resolves to the pair strategy built from the keyword bag. *)
Theorem strategy_name_matching :
  (forall s : string,
      lower (lower s) = lower s /\ String.length (lower s) = String.length s) /\
  (forall (name : string) (kw : kwargs) (st : Strategy),
      resolve (inl name) kw = Ok st <->
      resolve (inl (lower name)) kw = Ok st) /\
  (forall (name : string) (kw : kwargs) (st : Strategy),
      resolve (inl name) kw = Ok st <->
      (lower name = "future_pairs_strategy"%string \/
       lower name = "futurepairsstrategy"%string) /\
      st = FuturesStdPairStrategy.new kw).
Proof.
  assert (R : forall name kw st,
             resolve (inl name) kw = Ok st <->
             recognized (lower name) = true /\ st = FuturesStdPairStrategy.new kw).
  { intros name kw st. unfold resolve.
    destruct (recognized (lower name)); split.
    - intros H. split; [reflexivity|congruence].
    - intros [_ ->]. reflexivity.
    - discriminate.
    - intros [H _]. discriminate H. }
  split; [|split].
  - intros s. split; [apply lower_idem|].
    induction s as [|c s IH]; cbn; [reflexivity|]. rewrite IH. reflexivity.
  - intros name kw st. rewrite !R, lower_idem. reflexivity.
  - intros name kw st. rewrite R. unfold recognized.
    rewrite orb_true_iff, !String.eqb_eq. reflexivity.
Qed.

Lemma getkey_length (key : string) :
  String.length (CSVDataset.get_key key) = (String.length key + 6)%nat.
Proof.
  unfold CSVDataset.get_key.
  induction key as [|c key IH]; [reflexivity|].
  change (S (String.length (key ++ " Price")%string)
          = S (String.length key + 6)%nat).
  rewrite IH. reflexivity.
Qed.

(** X17.  Distinct identifiers of a data set get distinct price columns:
    [get_key] is injective, and the column name is six characters longer
    than the identifier. *)
Theorem get_key_injective (k1 k2 : string) :
  (CSVDataset.get_key k1 = CSVDataset.get_key k2 -> k1 = k2) /\
  String.length (CSVDataset.get_key k1) = (String.length k1 + 6)%nat.
Proof.
  split; [|apply getkey_length].
  revert k2. induction k1 as [|c k1 IH]; intros [|c2 k2] H.
  - reflexivity.
  - apply (f_equal String.length) in H. rewrite !getkey_length in H.
    cbn in H. lia.
  - apply (f_equal String.length) in H. rewrite !getkey_length in H.
    cbn in H. lia.
  - unfold CSVDataset.get_key in *. cbn in H. injection H as -> H.
    f_equal. apply IH. exact H.
Qed.

Lemma get_key_injective_witness :
  CSVDataset.get_key "A" = "A Price"%string /\
  (CSVDataset.get_key "A" = CSVDataset.get_key "A" -> "A"%string = "A"%string).
Proof.
  split; [reflexivity|]. apply (get_key_injective "A" "A").
Defined.

End Names.
